(** * Charlson comorbidity scoring ([new_calc.py]): shallow embedding

    The matcher functions [check_codes_exact] and [check_codes_startswith]
    and the entry point [calculate_score] are transcribed from the Python
    source.  Exceptions are modelled by a small error monad, [print] by an
    explicit list of output lines, the dictionaries loaded from JSON by
    association lists in insertion order, and the Python [set] of scored
    categories by the list of its elements together with an enumeration
    function that stands for the hash order of the interpreter. *)

From Stdlib Require Import String Ascii List ZArith Bool Lia Permutation.
Import ListNotations.
Open Scope string_scope.

(** ** Exceptions and results *)

Inductive exn : Type :=
| KeyError (key : string)
| TypeError.

Inductive result (A : Type) : Type :=
| Ok (a : A)
| Raise (e : exn).

Arguments Ok {A} a.
Arguments Raise {A} e.

Definition bind {A B : Type} (r : result A) (k : A -> result B) : result B :=
  match r with
  | Ok a => k a
  | Raise e => Raise e
  end.

Notation "x <- r ;; k" := (bind r (fun x => k))
  (at level 61, r at next level, right associativity).

(** ** Python values reaching the entry point *)

#[local] Set Warnings "-register-all".
Inductive pyval : Type :=
| PyNone
| PyBool (b : bool)
| PyInt (z : Z)
| PyStr (s : string)
| PyList (items : list pyval).

Definition isinstance_str (v : pyval) : bool :=
  match v with PyStr _ => true | _ => false end.

Definition isinstance_list (v : pyval) : bool :=
  match v with PyList _ => true | _ => false end.

(** The elements a [for] loop over [v] visits, for the list values that
    the validation iterates. *)
Definition items_of (v : pyval) : list pyval :=
  match v with PyList l => l | _ => [] end.

(** ** The mapping loaded from JSON *)

(** [codes] of a code group: a flat list of code strings, or a list of
    sub-groups. *)
Inductive codes_field : Type :=
| Flat (cs : list string)
| Groups (gs : list (list string)).

Module CodeGroup.
Record t : Type := mk { condition : string; codes : codes_field }.
End CodeGroup.

Module Category.
Record t : Type := mk {
  name : string;
  weight : Z;
  codes : list CodeGroup.t;
  depends_on : option (list string)
}.
End Category.

(** A dictionary with string keys, in insertion order. *)
Definition dict (V : Type) : Type := list (string * V).

Fixpoint dict_get {V : Type} (k : string) (d : dict V) : option V :=
  match d with
  | [] => None
  | (k', v) :: rest => if k' =? k then Some v else dict_get k rest
  end.

(** [d[k]]: raises [KeyError] on a missing key. *)
Definition dict_getitem {V : Type} (k : string) (d : dict V) : result V :=
  match dict_get k d with
  | Some v => Ok v
  | None => Raise (KeyError k)
  end.

Definition category_table : Type := dict Category.t.

(** ** Matchers *)

(** The argument [icd_codes] of the matchers: [Union[str, List[str]]]. *)
Inductive icd_arg : Type :=
| OneCode (s : string)
| CodeList (l : list string).

(** [if isinstance(icd_codes, str): icd_codes = [icd_codes]] *)
Definition ensure_list (icd_codes : icd_arg) : list string :=
  match icd_codes with
  | OneCode s => [s]
  | CodeList l => l
  end.

(** [code in icd_codes] for a string and a list of strings. *)
Definition py_in (code : string) (l : list string) : bool :=
  existsb (String.eqb code) l.

(** [code.startswith(prefix)] *)
Definition startswith (code prefix : string) : bool := String.prefix prefix code.

(** Iterating a string yields its one-character substrings. *)
Definition chars (s : string) : list string :=
  map (fun c => String c EmptyString) (list_ascii_of_string s).

Definition check_codes_exact (icd_codes : icd_arg) (code_group : CodeGroup.t)
  : result bool :=
  let icd_codes := ensure_list icd_codes in
  let condition := CodeGroup.condition code_group in
  let codes := CodeGroup.codes code_group in
  if condition =? "any" then
    match codes with
    | Flat cs => Ok (existsb (fun code => py_in code icd_codes) cs)
    | Groups gs =>
        (* a list is never equal to a string of [icd_codes] *)
        Ok (existsb (fun _ => false) gs)
    end
  else if condition =? "both" then
    match codes with
    | Groups gs =>
        Ok (forallb (fun group => existsb (fun code => py_in code icd_codes) group) gs)
    | Flat cs =>
        (* each string is iterated character by character *)
        Ok (forallb (fun group => existsb (fun code => py_in code icd_codes) (chars group)) cs)
    end
  else Ok false.

Definition check_codes_startswith (icd_codes : icd_arg) (code_group : CodeGroup.t)
  : result bool :=
  let icd_codes := ensure_list icd_codes in
  let condition := CodeGroup.condition code_group in
  let codes := CodeGroup.codes code_group in
  if condition =? "any" then
    match codes with
    | Flat cs =>
        Ok (existsb (fun code => existsb (fun prefix => startswith code prefix) cs) icd_codes)
    | Groups gs =>
        (* [str.startswith] rejects a list argument at the first pair visited *)
        match icd_codes, gs with
        | _ :: _, _ :: _ => Raise TypeError
        | _, _ => Ok false
        end
    end
  else if condition =? "both" then
    match codes with
    | Groups gs =>
        Ok (forallb (fun prefix => existsb (fun code => startswith code prefix) icd_codes)
                    (flat_map (fun group => group) gs))
    | Flat cs =>
        Ok (forallb (fun prefix => existsb (fun code => startswith code prefix) icd_codes)
                    (flat_map chars cs))
    end
  else Ok false.

(** ** The set of scored categories *)

(** Elements in insertion order, without duplicates. *)
Definition pyset : Type := list string.

Definition set_add (x : string) (s : pyset) : pyset :=
  if py_in x s then s else (s ++ [x])%list.

(** [s.remove(x)]: raises [KeyError] when [x] is absent. *)
Definition set_remove (x : string) (s : pyset) : result pyset :=
  if py_in x s then Ok (filter (fun y => negb (y =? x)) s)
  else Raise (KeyError x).

(** ** The scoring entry point *)

(** The condition under which [calculate_score] returns [None]. *)
Definition invalid_input (icd_codes : pyval) : bool :=
  negb (isinstance_str icd_codes || isinstance_list icd_codes)
  || (isinstance_list icd_codes
      && negb (forallb isinstance_str (items_of icd_codes))).

Definition strings_of (l : list pyval) : list string :=
  flat_map (fun v => match v with PyStr s => [s] | _ => [] end) l.

(** A validated argument as the matchers receive it. *)
Definition typed_codes (icd_codes : pyval) : icd_arg :=
  match icd_codes with
  | PyStr s => OneCode s
  | v => CodeList (strings_of (items_of v))
  end.

(** The inner loop over [details["codes"]], leaving at the first match. *)
Fixpoint first_match (check : CodeGroup.t -> result bool)
  (groups : list CodeGroup.t) : result bool :=
  match groups with
  | [] => Ok false
  | code_group :: rest =>
      hit <- check code_group ;;
      if hit then Ok true else first_match check rest
  end.

(** The loop over [data.items()] filling [scored_categories]. *)
Fixpoint categorize (check : CodeGroup.t -> result bool)
  (items : category_table) (scored_categories : pyset) : result pyset :=
  match items with
  | [] => Ok scored_categories
  | (category, details) :: rest =>
      hit <- first_match check (Category.codes details) ;;
      categorize check rest
        (if hit then set_add category scored_categories else scored_categories)
  end.

(** The dependency loop: [snapshot] is [list(scored_categories)], the
    membership tests read the live set. *)
Fixpoint suppress (data : category_table) (snapshot : list string)
  (scored_categories : pyset) : result pyset :=
  match snapshot with
  | [] => Ok scored_categories
  | category :: rest =>
      match dict_get category data with
      | Some details =>
          match Category.depends_on details with
          | Some deps =>
              if existsb (fun dep => py_in dep scored_categories) deps then
                remaining <- set_remove category scored_categories ;;
                suppress data rest remaining
              else suppress data rest scored_categories
          | None => suppress data rest scored_categories
          end
      | None => suppress data rest scored_categories
      end
  end.

(** [for category in scored_categories: score += data[category]["weight"]] *)
Fixpoint add_weights (data : category_table) (cats : list string) (score : Z)
  : result Z :=
  match cats with
  | [] => Ok score
  | category :: rest =>
      details <- dict_getitem category data ;;
      add_weights data rest (score + Category.weight details)
  end.

(** [for x in list(scored_categories): print(data[x]['name'])]: the lines
    written, and the exception that stopped the loop if any. *)
Fixpoint print_names (data : category_table) (cats : list string)
  : list string * option exn :=
  match cats with
  | [] => ([], None)
  | x :: rest =>
      match dict_get x data with
      | Some details =>
          let (out, e) := print_names data rest in
          (Category.name details :: out, e)
      | None => ([], Some (KeyError x))
      end
  end.

Definition header : string :=
  "The categories scored according to the given ICD Codes list are:".

(** What a call leaves behind: the lines printed and the value returned
    or the exception raised. *)
Record run : Type := mk_run { printed : list string; returned : result pyval }.

Section Scoring.

(** The order in which the interpreter enumerates a set, as a function of
    its elements in insertion order. *)
Variable iter_order : pyset -> list string.
Hypothesis iter_order_perm : forall s, Permutation (iter_order s) s.

Definition calculate_score (mappingdata : dict category_table)
  (icd_codes : pyval) (mapping : string) (list_cat exact_codes : bool) : run :=
  match dict_get mapping mappingdata with
  | None => mk_run [] (Raise (KeyError mapping))
  | Some data =>
      if invalid_input icd_codes then mk_run [] (Ok PyNone)
      else
        let check :=
          if exact_codes then check_codes_exact (typed_codes icd_codes)
          else check_codes_startswith (typed_codes icd_codes) in
        let computed :=
          scored_categories <- categorize check data [] ;;
          retained <- suppress data (iter_order scored_categories) scored_categories ;;
          score <- add_weights data (iter_order retained) 0%Z ;;
          Ok (retained, score) in
        match computed with
        | Raise e => mk_run [] (Raise e)
        | Ok (retained, score) =>
            if list_cat then
              match print_names data (iter_order retained) with
              | (out, Some e) => mk_run (header :: out) (Raise e)
              | (out, None) => mk_run (header :: out) (Ok (PyInt score))
              end
            else mk_run [] (Ok (PyInt score))
        end
  end.

End Scoring.

(** ** Sample data *)

Definition any_of (cs : list string) : CodeGroup.t := CodeGroup.mk "any" (Flat cs).
Definition both_of (gs : list (list string)) : CodeGroup.t :=
  CodeGroup.mk "both" (Groups gs).

(** The liver scenario: the mild category gives way to the severe one. *)
Definition liver_table : category_table :=
  [ ("liver_mild", Category.mk "Mild liver disease" 3 [any_of ["K74.6"]] (Some ["liver_severe"]));
    ("liver_severe", Category.mk "Severe liver disease" 10 [any_of ["K74.7"]] None) ].

Definition liver_mapping : dict category_table := [ ("icd2024gm", liver_table) ].

Definition insertion_order (s : pyset) : list string := s.

(** The dependency chain [a -> b -> c]: no cycle, every reference
    resolves, every group has a code. *)
Definition chain_table : category_table :=
  [ ("a", Category.mk "Stage one" 1 [any_of ["A"]] (Some ["b"]));
    ("b", Category.mk "Stage two" 2 [any_of ["B"]] (Some ["c"]));
    ("c", Category.mk "Stage three" 6 [any_of ["C"]] None) ].

Definition chain_mapping : dict category_table := [ ("icd2024gm", chain_table) ].

(** ** Vocabulary of the statements *)

(** The inputs the entry point accepts: a string or a list of strings. *)
Definition is_code_input (v : pyval) : Prop :=
  (exists s, v = PyStr s) \/ (exists l, v = PyList (map PyStr l)).

(** [v] holds the string [n], at any depth. *)
Fixpoint mentions (n : string) (v : pyval) : bool :=
  match v with
  | PyStr s => n =? s
  | PyList l => existsb (mentions n) l
  | _ => false
  end.

(** [v] holds the integer [z], at any depth: as the value itself or as an
    item of a list. *)
Fixpoint carries_int (z : Z) (v : pyval) : bool :=
  match v with
  | PyInt z' => (z =? z')%Z
  | PyList l => existsb (carries_int z) l
  | _ => false
  end.

(** A run that hands the names over in its return value and prints nothing. *)
Definition reports_by_return (names : list string) (r : run) : Prop :=
  printed r = []
  /\ exists v, returned r = Ok v /\ forall n, In n names -> mentions n v = true.

Definition display_name (data : category_table) (category : string) : string :=
  match dict_get category data with
  | Some details => Category.name details
  | None => ""
  end.

Definition weight_of (data : category_table) (category : string) : Z :=
  match dict_get category data with
  | Some details => Category.weight details
  | None => 0
  end.

Definition total_weight (data : category_table) (cats : list string) : Z :=
  fold_right (fun c acc => (weight_of data c + acc)%Z) 0%Z cats.

(** [category] carries a [depends_on] list with an id in the set [s]. *)
Definition suppressed_in (data : category_table) (s : pyset) (category : string) : bool :=
  match dict_get category data with
  | Some details =>
      match Category.depends_on details with
      | Some deps => existsb (fun dep => py_in dep s) deps
      | None => false
      end
  | None => false
  end.

(** [category] survives the dependency rule read against the set [s]. *)
Definition kept (data : category_table) (s : pyset) (category : string) : bool :=
  negb (suppressed_in data s category).

(** The live set of the dependency loop started on [scored], once the
    categories outside [rest] have had their turn. *)
Definition live_set (data : category_table) (scored : pyset) (rest : list string) : pyset :=
  filter (fun x => kept data scored x || py_in x rest) scored.

(** The dependency rule read against the original scored set, for the
    examination order [order]. *)
Definition original_set_rule (data : category_table) (scored order : list string) : Prop :=
  forall retained, suppress data order scored = Ok retained ->
  forall c, In c scored -> (In c retained <-> suppressed_in data scored c = false).

(** No scored category listed by another scored category is itself
    suppressed: suppression chains have length one. *)
Definition single_step (data : category_table) (scored : pyset) : Prop :=
  forall c d details deps,
    In c scored -> dict_get c data = Some details ->
    Category.depends_on details = Some deps ->
    In d deps -> In d scored -> d <> c ->
    suppressed_in data scored d = false.

(** [single_step] as a check that runs. *)
Definition single_stepb (data : category_table) (scored : pyset) : bool :=
  forallb
    (fun c =>
       match dict_get c data with
       | Some details =>
           match Category.depends_on details with
           | Some deps =>
               forallb (fun d => negb (py_in d scored) || (d =? c)
                                 || negb (suppressed_in data scored d)) deps
           | None => true
           end
       | None => true
       end)
    scored.

(** The invariants of the data model on a code group: an [any] group
    lists at least one code, a [both] group has a non-empty sub-group. *)
Definition group_ok (g : CodeGroup.t) : bool :=
  if CodeGroup.condition g =? "any" then
    match CodeGroup.codes g with
    | Flat (_ :: _) => true
    | _ => false
    end
  else if CodeGroup.condition g =? "both" then
    match CodeGroup.codes g with
    | Groups gs => existsb (fun sub => match sub with [] => false | _ :: _ => true end) gs
    | Flat _ => false
    end
  else true.

Definition table_ok (data : category_table) : bool :=
  forallb (fun item => forallb group_ok (Category.codes (snd item))) data.

(** The matcher the entry point selects. *)
Definition matcher (exact_codes : bool) (icd_codes : pyval) : CodeGroup.t -> result bool :=
  if exact_codes then check_codes_exact (typed_codes icd_codes)
  else check_codes_startswith (typed_codes icd_codes).

(** An [any] group lists code strings, not sub-groups. *)
Definition flat_any (g : CodeGroup.t) : bool :=
  if CodeGroup.condition g =? "any" then
    match CodeGroup.codes g with
    | Flat _ => true
    | Groups _ => false
    end
  else true.

Definition table_flat_any (data : category_table) : bool :=
  forallb (fun item => forallb flat_any (Category.codes (snd item))) data.

(** The strings a matcher compares the input codes with: the codes of an
    [any] group, the entries of all sub-groups of a [both] group (the
    characters of its strings when the group holds a flat list). *)
Definition patterns (g : CodeGroup.t) : list string :=
  if CodeGroup.condition g =? "any" then
    match CodeGroup.codes g with
    | Flat cs => cs
    | Groups _ => []
    end
  else if CodeGroup.condition g =? "both" then
    match CodeGroup.codes g with
    | Groups gs => flat_map (fun group => group) gs
    | Flat cs => flat_map chars cs
    end
  else [].

(** No pattern of [g] meets the code [c]: none equals it in exact mode,
    none is a prefix of it in prefix mode. *)
Definition unmatched (exact_codes : bool) (c : string) (g : CodeGroup.t) : bool :=
  forallb (fun p => negb (if exact_codes then p =? c else startswith c p)) (patterns g).

Definition table_unmatched (exact_codes : bool) (c : string) (data : category_table) : bool :=
  forallb (fun item => forallb (unmatched exact_codes c) (Category.codes (snd item))) data.

(** Every weight of the table is non-negative. *)
Definition weights_nonneg (data : category_table) : bool :=
  forallb (fun item => (0 <=? Category.weight (snd item))%Z) data.

(** The sum of the weights over the keys of the table. *)
Definition table_weight (data : category_table) : Z :=
  total_weight data (map fst data).

(** * Properties *)

Example liver_severe_only :
  calculate_score insertion_order liver_mapping (PyList [PyStr "K74.7"]) "icd2024gm" false false
  = mk_run [] (Ok (PyInt 10)).
Proof. reflexivity. Qed.

Example liver_mild_only :
  calculate_score insertion_order liver_mapping (PyStr "K74.6") "icd2024gm" false false
  = mk_run [] (Ok (PyInt 3)).
Proof. reflexivity. Qed.

Example liver_both_suppressed :
  calculate_score insertion_order liver_mapping
    (PyList [PyStr "K74.6"; PyStr "K74.71"]) "icd2024gm" false false
  = mk_run [] (Ok (PyInt 10)).
Proof. reflexivity. Qed.

Example liver_exact_no_prefix :
  calculate_score insertion_order liver_mapping
    (PyList [PyStr "K74.6"; PyStr "K74.71"]) "icd2024gm" false true
  = mk_run [] (Ok (PyInt 3)).
Proof. reflexivity. Qed.

(** ** Properties of the matchers *)

Lemma py_in_In (code : string) (l : list string) : py_in code l = true <-> In code l.
Proof.
  unfold py_in. rewrite existsb_exists. split.
  - intros [x [Hx Heq]]. apply String.eqb_eq in Heq. now subst.
  - intros H. exists code. split; [assumption | apply String.eqb_refl].
Qed.

(** X18.  What the prefix matcher computes for a [both] group: every entry
    of every sub-group has to be a prefix of some input code. *)
Lemma startswith_both_spec (icd_codes : icd_arg) (gs : list (list string)) :
  check_codes_startswith icd_codes (both_of gs) = Ok true <->
  forall group prefix, In group gs -> In prefix group ->
    exists code, In code (ensure_list icd_codes) /\ startswith code prefix = true.
Proof.
  unfold check_codes_startswith. cbn. split.
  - intros H group prefix Hg Hp. injection H as H.
    rewrite forallb_forall in H.
    assert (Hin : In prefix (flat_map (fun g => g) gs)).
    { apply in_flat_map. now exists group. }
    apply H in Hin. apply existsb_exists in Hin. exact Hin.
  - intros H. f_equal. apply forallb_forall. intros prefix Hin.
    apply in_flat_map in Hin. destruct Hin as [group [Hg Hp]].
    apply existsb_exists. eauto.
Qed.

(** X17.  What the exact matcher computes for a [both] group: every
    sub-group has an entry among the input codes. *)
Lemma exact_both_spec (icd_codes : icd_arg) (gs : list (list string)) :
  check_codes_exact icd_codes (both_of gs) = Ok true <->
  forall group, In group gs ->
    exists code, In code group /\ In code (ensure_list icd_codes).
Proof.
  unfold check_codes_exact. cbn. split.
  - intros H group Hg. injection H as H.
    rewrite forallb_forall in H. apply H in Hg.
    apply existsb_exists in Hg. destruct Hg as [code [Hc Hin]].
    exists code. split; [assumption | now apply py_in_In].
  - intros H. f_equal. apply forallb_forall. intros group Hg.
    destruct (H group Hg) as [code [Hc Hin]].
    apply existsb_exists. exists code. split; [assumption | now apply py_in_In].
Qed.

(** C1 (evaluation at the failing input).  For the sub-groups
    [[A,B],[C,D]] and the input [[A,C]], where each sub-group has an entry
    that an input code starts with, the prefix matcher answers false,
    because it asks for a match of B and of D as well; the exact matcher
    answers true on the same arguments. *)
Theorem startswith_both_rejects_one_per_subgroup :
  check_codes_startswith (CodeList ["A"; "C"]) (both_of [["A"; "B"]; ["C"; "D"]]) = Ok false
  /\ check_codes_exact (CodeList ["A"; "C"]) (both_of [["A"; "B"]; ["C"; "D"]]) = Ok true
  /\ (forall group, In group [["A"; "B"]; ["C"; "D"]] ->
        exists code prefix, In code ["A"; "C"] /\ In prefix group
                            /\ startswith code prefix = true).
Proof.
  split; [reflexivity | split; [reflexivity |]].
  intros group [<- | [<- | []]].
  - exists "A", "A". cbn. tauto.
  - exists "C", "C". cbn. tauto.
Qed.

(** C6.  A code group whose condition is neither ["any"] nor ["both"] is
    matched by no input, in exact and in prefix mode, and neither matcher
    raises. *)
Theorem unknown_condition_never_matches (icd_codes : icd_arg) (code_group : CodeGroup.t) :
  CodeGroup.condition code_group <> "any" ->
  CodeGroup.condition code_group <> "both" ->
  check_codes_exact icd_codes code_group = Ok false
  /\ check_codes_startswith icd_codes code_group = Ok false.
Proof.
  intros Hany Hboth.
  apply String.eqb_neq in Hany. apply String.eqb_neq in Hboth.
  unfold check_codes_exact, check_codes_startswith.
  rewrite Hany, Hboth. split; reflexivity.
Qed.

Lemma unknown_condition_never_matches_witness :
  check_codes_exact (CodeList ["A00"]) (CodeGroup.mk "all" (Flat ["A00"])) = Ok false
  /\ check_codes_startswith (CodeList ["A00"]) (CodeGroup.mk "all" (Flat ["A00"])) = Ok false.
Proof.
  apply (unknown_condition_never_matches (CodeList ["A00"]) (CodeGroup.mk "all" (Flat ["A00"])));
    cbn; discriminate.
Defined.

(** C10.  A [both] group with an empty sequence of sub-groups is matched by
    every input, the empty one included, in exact and in prefix mode. *)
Theorem both_without_subgroups_always_matches (icd_codes : icd_arg) :
  check_codes_exact icd_codes (both_of []) = Ok true
  /\ check_codes_startswith icd_codes (both_of []) = Ok true
  /\ check_codes_exact icd_codes (CodeGroup.mk "both" (Flat [])) = Ok true
  /\ check_codes_startswith icd_codes (CodeGroup.mk "both" (Flat [])) = Ok true
  /\ check_codes_exact (CodeList []) (both_of []) = Ok true
  /\ check_codes_startswith (CodeList []) (both_of []) = Ok true.
Proof. repeat split. Qed.

(** ** The set operations *)

Lemma set_add_In (x c : string) (s : pyset) : In c (set_add x s) <-> c = x \/ In c s.
Proof.
  unfold set_add. destruct (py_in x s) eqn:E.
  - apply py_in_In in E. split; [tauto | intros [-> | H]; assumption].
  - rewrite in_app_iff. cbn. split; intros H; intuition (subst; auto).
Qed.

Lemma set_add_NoDup (x : string) (s : pyset) : NoDup s -> NoDup (set_add x s).
Proof.
  intros H. unfold set_add. destruct (py_in x s) eqn:E; [assumption |].
  apply NoDup_app; [assumption | repeat constructor; intros [] |].
  intros a Ha [<- | []].
  apply py_in_In in Ha. congruence.
Qed.

Lemma dict_get_keys {V : Type} (k : string) (d : dict V) :
  In k (map fst d) <-> exists v, dict_get k d = Some v.
Proof.
  induction d as [| [k' v] d IH]; cbn.
  - split; [intros [] | intros [v Hv]; discriminate].
  - destruct (k' =? k) eqn:E.
    + apply String.eqb_eq in E. split; [intros _; now exists v | intros _; now left].
    + apply String.eqb_neq in E. rewrite <- IH. split; [intros [H | H]; tauto | tauto].
Qed.

(** ** The loops of the entry point *)

Lemma categorize_scored (check : CodeGroup.t -> result bool) (items : category_table) :
  forall acc scored,
    categorize check items acc = Ok scored ->
    NoDup acc ->
    NoDup scored /\ forall c, In c scored -> In c acc \/ In c (map fst items).
Proof.
  induction items as [| [category details] items IH]; intros acc scored Hrun Hnd; cbn in Hrun.
  - injection Hrun as <-. split; [assumption | tauto].
  - destruct (first_match check (Category.codes details)) as [hit | e]; cbn in Hrun;
      [| discriminate].
    apply IH in Hrun.
    + destruct Hrun as [Hnd' Hin]. split; [assumption |].
      intros c Hc. apply Hin in Hc. cbn. destruct Hc as [Hc | Hc]; [| tauto].
      destruct hit; [| tauto].
      apply set_add_In in Hc. destruct Hc as [-> | Hc]; tauto.
    + destruct hit; [now apply set_add_NoDup | assumption].
Qed.

Lemma filter_drop_In (x c : string) (s : pyset) :
  In c (filter (fun y => negb (y =? x)) s) <-> In c s /\ c <> x.
Proof.
  rewrite filter_In. split; intros [H1 H2]; split; try assumption.
  - apply negb_true_iff in H2. now apply String.eqb_neq.
  - apply negb_true_iff. now apply String.eqb_neq.
Qed.

(** The dependency loop never raises: each category of the snapshot is
    still in the set when its turn comes. *)
Lemma suppress_total (data : category_table) (snapshot : list string) :
  forall cur, NoDup snapshot -> incl snapshot cur ->
    exists retained, suppress data snapshot cur = Ok retained /\ incl retained cur.
Proof.
  induction snapshot as [| category rest IH]; intros cur Hnd Hincl; cbn.
  - exists cur. split; [reflexivity | apply incl_refl].
  - inversion Hnd as [| ? ? Hnotin Hnd']; subst.
    assert (Hrest : incl rest cur) by (intros c Hc; apply Hincl; now right).
    destruct (dict_get category data) as [details |]; [| now apply IH].
    destruct (Category.depends_on details) as [deps |]; [| now apply IH].
    destruct (existsb (fun dep => py_in dep cur) deps); [| now apply IH].
    unfold set_remove.
    assert (Hin : py_in category cur = true) by (apply py_in_In, Hincl; now left).
    rewrite Hin. cbn.
    destruct (IH (filter (fun y => negb (y =? category)) cur) Hnd') as [retained [Hrun Hsub]].
    + intros c Hc. apply filter_drop_In. split; [now apply Hrest |].
      intros ->. contradiction.
    + exists retained. split; [assumption |].
      intros c Hc. apply Hsub in Hc. now apply filter_drop_In in Hc.
Qed.

Lemma add_weights_sum (data : category_table) (cats : list string) :
  forall score,
    (forall c, In c cats -> In c (map fst data)) ->
    add_weights data cats score = Ok (score + total_weight data cats)%Z.
Proof.
  induction cats as [| c cats IH]; intros score Hkeys.
  - cbn. now rewrite Z.add_0_r.
  - assert (Hc : In c (map fst data)) by (apply Hkeys; now left).
    apply dict_get_keys in Hc. destruct Hc as [details Hd].
    assert (Hw : weight_of data c = Category.weight details)
      by (unfold weight_of; now rewrite Hd).
    change (total_weight data (c :: cats))
      with (weight_of data c + total_weight data cats)%Z.
    cbn [add_weights]. unfold dict_getitem. rewrite Hd. cbn [bind].
    rewrite IH by (intros c' Hc'; apply Hkeys; now right).
    f_equal. lia.
Qed.

Lemma print_names_lines (data : category_table) (cats : list string) :
  (forall c, In c cats -> In c (map fst data)) ->
  print_names data cats = (map (display_name data) cats, None).
Proof.
  induction cats as [| c cats IH]; intros Hkeys; cbn; [reflexivity |].
  assert (Hc : In c (map fst data)) by (apply Hkeys; now left).
  apply dict_get_keys in Hc. destruct Hc as [details Hd].
  unfold display_name at 1. rewrite Hd.
  rewrite IH by (intros c' Hc'; apply Hkeys; now right).
  reflexivity.
Qed.

Lemma total_weight_perm (data : category_table) (l l' : list string) :
  Permutation l l' -> total_weight data l = total_weight data l'.
Proof.
  unfold total_weight. induction 1; cbn [fold_right]; lia.
Qed.

(** ** Validation *)

Lemma all_strings (l : list pyval) :
  forallb isinstance_str l = true <-> exists l', l = map PyStr l'.
Proof.
  induction l as [| v l IH]; cbn.
  - split; [intros _; now exists [] | reflexivity].
  - rewrite andb_true_iff, IH. split.
    + intros [Hv [l' ->]]. destruct v; try discriminate. now exists (s :: l').
    + intros [[| s l'] Heq]; [discriminate |]. cbn in Heq.
      injection Heq as -> ->. split; [reflexivity | now exists l'].
Qed.

Lemma invalid_input_false (v : pyval) : invalid_input v = false <-> is_code_input v.
Proof.
  unfold is_code_input. destruct v as [| b | z | s | l]; cbn;
    try (split; [discriminate | intros [[s' H] | [l' H]]; discriminate]).
  - split; [intros _; left; now exists s | reflexivity].
  - rewrite negb_false_iff, all_strings. split.
    + intros [l' ->]. right. now exists l'.
    + intros [[s H] | [l' H]]; [discriminate | injection H as ->; now exists l'].
Qed.

(** ** Insensitivity of the matchers to the order of the input codes *)

Lemma existsb_same_elements {A : Type} (f : A -> bool) (l l' : list A) :
  (forall x, In x l <-> In x l') -> existsb f l = existsb f l'.
Proof.
  intros H. apply eq_true_iff_eq. rewrite !existsb_exists.
  split; intros [x [Hx Hf]]; exists x; split; try assumption; now apply H.
Qed.

Lemma forallb_same_elements {A : Type} (f : A -> bool) (l l' : list A) :
  (forall x, In x l <-> In x l') -> forallb f l = forallb f l'.
Proof.
  intros H. apply eq_true_iff_eq. rewrite !forallb_forall.
  split; intros Hall x Hx; apply Hall; now apply H.
Qed.

Lemma existsb_pointwise {A : Type} (f g : A -> bool) (l : list A) :
  (forall x, f x = g x) -> existsb f l = existsb g l.
Proof.
  intros H. induction l as [| x l IH]; cbn; [reflexivity | now rewrite H, IH].
Qed.

Lemma forallb_pointwise {A : Type} (f g : A -> bool) (l : list A) :
  (forall x, f x = g x) -> forallb f l = forallb g l.
Proof.
  intros H. induction l as [| x l IH]; cbn; [reflexivity | now rewrite H, IH].
Qed.

Lemma perm_same_elements {A : Type} (l l' : list A) :
  Permutation l l' -> forall x, In x l <-> In x l'.
Proof.
  intros H x. split; apply Permutation_in; [assumption | now apply Permutation_sym].
Qed.

Lemma check_codes_exact_perm (l l' : list string) (code_group : CodeGroup.t) :
  Permutation l l' ->
  check_codes_exact (CodeList l) code_group = check_codes_exact (CodeList l') code_group.
Proof.
  intros H. pose proof (perm_same_elements l l' H) as Hsame.
  assert (Hin : forall code, py_in code l = py_in code l')
    by (intros code; now apply existsb_same_elements).
  unfold check_codes_exact. cbn [ensure_list].
  destruct (CodeGroup.condition code_group =? "any").
  - destruct (CodeGroup.codes code_group); [| reflexivity].
    f_equal. now apply existsb_pointwise.
  - destruct (CodeGroup.condition code_group =? "both"); [| reflexivity].
    destruct (CodeGroup.codes code_group); f_equal; apply forallb_pointwise;
      intros group; now apply existsb_pointwise.
Qed.

Lemma check_codes_startswith_perm (l l' : list string) (code_group : CodeGroup.t) :
  Permutation l l' ->
  check_codes_startswith (CodeList l) code_group
  = check_codes_startswith (CodeList l') code_group.
Proof.
  intros H. pose proof (perm_same_elements l l' H) as Hsame.
  unfold check_codes_startswith. cbn [ensure_list].
  destruct (CodeGroup.condition code_group =? "any").
  - destruct (CodeGroup.codes code_group) as [cs | gs].
    + f_equal. now apply existsb_same_elements.
    + destruct l as [| c l].
      * apply Permutation_nil in H. now subst.
      * destruct l' as [| c' l']; [| reflexivity].
        apply Permutation_sym, Permutation_nil in H. discriminate.
  - destruct (CodeGroup.condition code_group =? "both"); [| reflexivity].
    destruct (CodeGroup.codes code_group); f_equal; apply forallb_pointwise;
      intros prefix; now apply existsb_same_elements.
Qed.

Lemma strings_of_perm (l l' : list pyval) :
  Permutation l l' -> Permutation (strings_of l) (strings_of l').
Proof.
  intros H. unfold strings_of. now apply Permutation_flat_map.
Qed.

Lemma matcher_perm (exact_codes : bool) (l l' : list pyval) (code_group : CodeGroup.t) :
  Permutation l l' ->
  matcher exact_codes (PyList l) code_group = matcher exact_codes (PyList l') code_group.
Proof.
  intros H. apply strings_of_perm in H. unfold matcher, typed_codes. cbn [items_of].
  destruct exact_codes;
    [now apply check_codes_exact_perm | now apply check_codes_startswith_perm].
Qed.

Lemma first_match_pointwise (check check' : CodeGroup.t -> result bool)
  (groups : list CodeGroup.t) :
  (forall g, check g = check' g) -> first_match check groups = first_match check' groups.
Proof.
  intros H. induction groups as [| g groups IH]; cbn; [reflexivity |].
  rewrite H. destruct (check' g) as [[|] | e]; cbn; congruence.
Qed.

Lemma categorize_pointwise (check check' : CodeGroup.t -> result bool)
  (items : category_table) :
  (forall g, check g = check' g) ->
  forall acc, categorize check items acc = categorize check' items acc.
Proof.
  intros H. induction items as [| [category details] items IH]; intros acc; cbn;
    [reflexivity |].
  rewrite (first_match_pointwise check check' _ H).
  destruct (first_match check' (Category.codes details)) as [hit | e]; cbn;
    [apply IH | reflexivity].
Qed.

(** ** The dependency loop against the original set *)

Lemma filter_twice {A : Type} (f g : A -> bool) (l : list A) :
  filter f (filter g l) = filter (fun x => g x && f x) l.
Proof.
  induction l as [| x l IH]; cbn; [reflexivity |].
  destruct (g x); cbn; [destruct (f x) |]; now rewrite IH.
Qed.

Section OriginalSet.

Variable data : category_table.
Variable scored : pyset.

Local Abbreviation keep := (kept data scored).
Local Abbreviation live := (live_set data scored).

Lemma live_kept (c : string) (rest : list string) :
  keep c = true -> live (c :: rest) = live rest.
Proof.
  intros Hkeep. unfold live_set. apply filter_ext. intros x. cbn.
  destruct (x =? c) eqn:E; [| reflexivity].
  apply String.eqb_eq in E. subst x. now rewrite Hkeep.
Qed.

Lemma live_dropped (c : string) (rest : list string) :
  keep c = false -> ~ In c rest ->
  filter (fun y => negb (y =? c)) (live (c :: rest)) = live rest.
Proof.
  intros Hkeep Hnotin. unfold live_set. rewrite filter_twice.
  apply filter_ext. intros x. cbn.
  destruct (x =? c) eqn:E; cbn.
  - apply String.eqb_eq in E. subst x. rewrite Hkeep.
    assert (Hout : py_in c rest = false).
    { apply not_true_is_false. intros H. now apply py_in_In in H. }
    rewrite Hout. reflexivity.
  - now rewrite andb_true_r.
Qed.

Lemma live_In (c : string) (rest : list string) :
  In c (live rest) <-> In c scored /\ (keep c = true \/ In c rest).
Proof.
  unfold live_set. rewrite filter_In, orb_true_iff, py_in_In. reflexivity.
Qed.

Hypothesis chains : single_step data scored.

Lemma live_reads_original (c : string) (rest : list string)
  (details : Category.t) (deps : list string) :
  In c scored -> dict_get c data = Some details ->
  Category.depends_on details = Some deps ->
  existsb (fun dep => py_in dep (live (c :: rest))) deps
  = existsb (fun dep => py_in dep scored) deps.
Proof.
  intros Hc Hget Hdeps. apply eq_true_iff_eq. rewrite !existsb_exists.
  split; intros [d [Hd Hin]]; exists d; (split; [assumption |]);
    apply py_in_In; apply py_in_In in Hin.
  - now apply live_In in Hin.
  - apply live_In. split; [assumption |].
    destruct (string_dec d c) as [-> | Hneq]; [right; now left |].
    left. unfold kept.
    now rewrite (chains c d details deps Hc Hget Hdeps Hd Hin Hneq).
Qed.

Lemma suppress_live (rest : list string) :
  NoDup rest -> incl rest scored ->
  suppress data rest (live rest) = Ok (filter keep scored).
Proof.
  induction rest as [| c rest IH]; intros Hnd Hincl.
  - cbn. unfold live_set. f_equal. apply filter_ext. intros x. cbn. apply orb_false_r.
  - inversion Hnd as [| ? ? Hnotin Hnd']; subst.
    assert (Hc : In c scored) by (apply Hincl; now left).
    assert (Hrest : incl rest scored) by (intros x Hx; apply Hincl; now right).
    cbn [suppress].
    destruct (dict_get c data) as [details |] eqn:Hget.
    + destruct (Category.depends_on details) as [deps |] eqn:Hdeps.
      * rewrite (live_reads_original c rest details deps Hc Hget Hdeps).
        assert (Hsup : suppressed_in data scored c
                       = existsb (fun dep => py_in dep scored) deps)
          by (unfold suppressed_in; now rewrite Hget, Hdeps).
        destruct (existsb (fun dep => py_in dep scored) deps).
        -- unfold set_remove.
           assert (Hlive : py_in c (live (c :: rest)) = true).
           { apply py_in_In, live_In. split; [assumption | right; now left]. }
           rewrite Hlive. cbn [bind].
           assert (Hkeep : keep c = false) by (unfold kept; now rewrite Hsup).
           rewrite (live_dropped c rest Hkeep Hnotin).
           now apply IH.
        -- rewrite live_kept by (unfold kept; now rewrite Hsup). now apply IH.
      * rewrite live_kept; [now apply IH |].
        unfold kept, suppressed_in. now rewrite Hget, Hdeps.
    + rewrite live_kept; [now apply IH |].
      unfold kept, suppressed_in. now rewrite Hget.
Qed.

Lemma live_all (order : list string) :
  Permutation order scored -> live order = scored.
Proof.
  intros Hperm. unfold live_set.
  rewrite <- (filter_true scored) at 2. apply filter_ext_in.
  intros x Hx. apply orb_true_iff. right. apply py_in_In.
  apply (Permutation_in x (Permutation_sym Hperm) Hx).
Qed.

Lemma suppress_original (order : list string) :
  NoDup scored -> Permutation order scored ->
  suppress data order scored = Ok (filter keep scored).
Proof.
  intros Hnd Hperm. rewrite <- (live_all order Hperm) at 1.
  apply suppress_live.
  - apply (Permutation_NoDup (Permutation_sym Hperm) Hnd).
  - intros x Hx. apply (Permutation_in x Hperm Hx).
Qed.

End OriginalSet.

(** ** The empty input *)

Lemma nothing_in_empty (l : list string) :
  existsb (fun code => py_in code []) l = false.
Proof. induction l as [| x l IH]; cbn; [reflexivity | assumption]. Qed.

Lemma has_nonempty_subgroup (gs : list (list string)) :
  existsb (fun sub => match sub with [] => false | _ :: _ => true end) gs = true ->
  exists prefix, In prefix (flat_map (fun group => group) gs).
Proof.
  intros H. apply existsb_exists in H. destruct H as [[| prefix sub] [Hin Hne]];
    [discriminate |].
  exists prefix. apply in_flat_map. exists (prefix :: sub). split; [assumption | now left].
Qed.

Lemma check_codes_exact_empty (g : CodeGroup.t) :
  group_ok g = true -> check_codes_exact (CodeList []) g = Ok false.
Proof.
  unfold group_ok, check_codes_exact. cbn [ensure_list].
  destruct (CodeGroup.condition g =? "any").
  - destruct (CodeGroup.codes g) as [[| c cs] | gs]; try discriminate.
    intros _. f_equal. apply nothing_in_empty.
  - destruct (CodeGroup.condition g =? "both"); [| reflexivity].
    destruct (CodeGroup.codes g) as [cs | [| sub gs]]; try discriminate.
    intros _. f_equal. cbn. now rewrite nothing_in_empty.
Qed.

Lemma check_codes_startswith_empty (g : CodeGroup.t) :
  group_ok g = true -> check_codes_startswith (CodeList []) g = Ok false.
Proof.
  unfold group_ok, check_codes_startswith. cbn [ensure_list].
  destruct (CodeGroup.condition g =? "any").
  - destruct (CodeGroup.codes g) as [[| c cs] | gs]; try discriminate. reflexivity.
  - destruct (CodeGroup.condition g =? "both"); [| reflexivity].
    destruct (CodeGroup.codes g) as [cs | gs]; try discriminate.
    intros H. apply has_nonempty_subgroup in H. destruct H as [prefix Hin].
    f_equal. apply not_true_is_false. intros Hall.
    rewrite forallb_forall in Hall. apply Hall in Hin. discriminate.
Qed.

Lemma matcher_empty (exact_codes : bool) (g : CodeGroup.t) :
  group_ok g = true -> matcher exact_codes (PyList []) g = Ok false.
Proof.
  intros H. unfold matcher, typed_codes. cbn.
  destruct exact_codes;
    [now apply check_codes_exact_empty | now apply check_codes_startswith_empty].
Qed.

Lemma first_match_none (check : CodeGroup.t -> result bool) (groups : list CodeGroup.t) :
  (forall g, In g groups -> check g = Ok false) -> first_match check groups = Ok false.
Proof.
  induction groups as [| g groups IH]; intros H; cbn; [reflexivity |].
  rewrite (H g) by now left. cbn. apply IH. intros g' Hg'. apply H. now right.
Qed.

Lemma categorize_none (check : CodeGroup.t -> result bool) (items : category_table) :
  (forall item g, In item items -> In g (Category.codes (snd item)) -> check g = Ok false) ->
  forall acc, categorize check items acc = Ok acc.
Proof.
  induction items as [| [category details] items IH]; intros H acc; cbn; [reflexivity |].
  rewrite first_match_none.
  - cbn. apply IH. intros item g Hitem Hg. apply (H item g); [now right | assumption].
  - intros g Hg. apply (H (category, details) g); [now left | assumption].
Qed.

Lemma categorize_empty_input (exact_codes : bool) (data : category_table) :
  table_ok data = true -> categorize (matcher exact_codes (PyList [])) data [] = Ok [].
Proof.
  intros Hok. apply categorize_none. intros item g Hitem Hg.
  apply matcher_empty. unfold table_ok in Hok.
  rewrite forallb_forall in Hok. specialize (Hok item Hitem).
  rewrite forallb_forall in Hok. now apply Hok.
Qed.

(** ** The entry point *)

Section ScoringProperties.

Variable iter_order : pyset -> list string.
Hypothesis iter_order_perm : forall s, Permutation (iter_order s) s.

Lemma iter_order_In (s : pyset) (c : string) : In c (iter_order s) <-> In c s.
Proof. apply perm_same_elements, iter_order_perm. Qed.

(** A call with a known mapping and a valid input on which the
    categorisation completes: what is printed and what is returned. *)
Lemma calculate_score_run (mappingdata : dict category_table) (icd_codes : pyval)
  (mapping : string) (list_cat exact_codes : bool)
  (data : category_table) (scored : pyset) :
  dict_get mapping mappingdata = Some data ->
  invalid_input icd_codes = false ->
  categorize (matcher exact_codes icd_codes) data [] = Ok scored ->
  exists retained,
    suppress data (iter_order scored) scored = Ok retained
    /\ incl retained scored
    /\ calculate_score iter_order mappingdata icd_codes mapping list_cat exact_codes
       = mk_run (if list_cat
                 then header :: map (display_name data) (iter_order retained)
                 else [])
                (Ok (PyInt (total_weight data retained))).
Proof.
  intros Hget Hvalid Hcat.
  destruct (categorize_scored _ _ _ _ Hcat (NoDup_nil _)) as [Hnd Hkeys].
  destruct (suppress_total data (iter_order scored) scored) as [retained [Hsup Hsub]].
  - apply (Permutation_NoDup (Permutation_sym (iter_order_perm scored)) Hnd).
  - intros c Hc. exact (proj1 (iter_order_In scored c) Hc).
  - exists retained. split; [assumption | split; [assumption |]].
    assert (Hin : forall c, In c (iter_order retained) -> In c (map fst data)).
    { intros c Hc. apply (proj1 (iter_order_In retained c)) in Hc.
      apply Hsub, Hkeys in Hc. destruct Hc as [[] | Hc]. exact Hc. }
    unfold calculate_score. rewrite Hget, Hvalid.
    change (if exact_codes
            then check_codes_exact (typed_codes icd_codes)
            else check_codes_startswith (typed_codes icd_codes))
      with (matcher exact_codes icd_codes).
    rewrite Hcat. cbn [bind]. rewrite Hsup. cbn [bind].
    rewrite (add_weights_sum data _ 0%Z Hin). cbn [bind Z.add].
    rewrite (total_weight_perm data _ _ (iter_order_perm retained)).
    destruct list_cat; [| reflexivity].
    now rewrite (print_names_lines data _ Hin).
Qed.

End ScoringProperties.

Lemma single_stepb_sound (data : category_table) (scored : pyset) :
  single_stepb data scored = true -> single_step data scored.
Proof.
  unfold single_stepb, single_step.
  intros H c d details deps Hc Hget Hdeps Hd Hin Hneq.
  rewrite forallb_forall in H. specialize (H c Hc).
  rewrite Hget, Hdeps, forallb_forall in H. specialize (H d Hd).
  apply py_in_In in Hin. apply String.eqb_neq in Hneq.
  rewrite Hin, Hneq in H. cbn in H. now apply negb_true_iff in H.
Qed.

(** X19.  When no scored category listed in the [depends_on] of another
    scored category has a scored dependency of its own, the dependency
    loop keeps a scored category exactly when none of its [depends_on] ids
    is in the original scored set, whatever the order in which the
    categories are examined, and the weights of the retained categories
    add up to the same score in every enumeration order. *)
Theorem suppression_reads_original_on_single_step
  (check : CodeGroup.t -> result bool) (data : category_table) (scored : pyset) :
  categorize check data [] = Ok scored ->
  single_step data scored ->
  exists retained score,
    (forall order, Permutation order scored ->
       suppress data order scored = Ok retained
       /\ original_set_rule data scored order)
    /\ (forall c, In c retained <-> In c scored /\ suppressed_in data scored c = false)
    /\ (forall enum, Permutation enum retained -> add_weights data enum 0%Z = Ok score).
Proof.
  intros Hcat Hchains.
  destruct (categorize_scored _ _ _ _ Hcat (NoDup_nil _)) as [Hnd Hkeys].
  set (retained := filter (fun c => negb (suppressed_in data scored c)) scored).
  assert (Hmem : forall c, In c retained <-> In c scored /\ suppressed_in data scored c = false).
  { intros c. unfold retained. rewrite filter_In, negb_true_iff. reflexivity. }
  exists retained, (total_weight data retained). split; [| split].
  - intros order Hperm.
    assert (Hrun : suppress data order scored = Ok retained)
      by exact (suppress_original data scored Hchains order Hnd Hperm).
    split; [exact Hrun |].
    intros retained' Hrun' c Hc.
    assert (Heq : retained' = retained) by congruence.
    rewrite Heq. specialize (Hmem c). tauto.
  - exact Hmem.
  - intros enum Hperm. rewrite add_weights_sum.
    + cbn [Z.add]. f_equal. now apply total_weight_perm.
    + intros c Hc. apply (Permutation_in c Hperm) in Hc. apply Hmem in Hc.
      destruct Hc as [Hc _]. apply Hkeys in Hc. destruct Hc as [[] | Hc]. exact Hc.
Qed.

Lemma suppression_reads_original_on_single_step_witness :
  exists retained score,
    (forall order, Permutation order ["liver_mild"; "liver_severe"] ->
       suppress liver_table order ["liver_mild"; "liver_severe"] = Ok retained
       /\ original_set_rule liver_table ["liver_mild"; "liver_severe"] order)
    /\ (forall c, In c retained <->
                  In c ["liver_mild"; "liver_severe"]
                  /\ suppressed_in liver_table ["liver_mild"; "liver_severe"] c = false)
    /\ (forall enum, Permutation enum retained ->
                     add_weights liver_table enum 0%Z = Ok score).
Proof.
  apply (suppression_reads_original_on_single_step
           (check_codes_startswith (CodeList ["K74.6"; "K74.7"])) liver_table).
  - reflexivity.
  - apply single_stepb_sound. reflexivity.
Defined.

(** C2 (evaluation at the failing input).  On the chain [a -> b -> c]
    with the codes of all three categories in the input, all three are
    scored; examining them in the order c, b, a removes [b] and then keeps
    [a], although [b], listed in the [depends_on] of [a], is in the
    original scored set, and the call returns 7; the order a, b, c removes
    [a] and [b] and the call returns 6.  The membership test reads the set
    the loop is shrinking, so the outcome follows the enumeration order. *)
Theorem suppression_depends_on_examination_order :
  categorize (check_codes_startswith (CodeList ["A"; "B"; "C"])) chain_table []
  = Ok ["a"; "b"; "c"]
  /\ suppress chain_table ["c"; "b"; "a"] ["a"; "b"; "c"] = Ok ["a"; "c"]
  /\ suppress chain_table ["a"; "b"; "c"] ["a"; "b"; "c"] = Ok ["c"]
  /\ ~ original_set_rule chain_table ["a"; "b"; "c"] ["c"; "b"; "a"]
  /\ returned (calculate_score insertion_order chain_mapping
                 (PyList [PyStr "A"; PyStr "B"; PyStr "C"]) "icd2024gm" false false)
     = Ok (PyInt 6)
  /\ returned (calculate_score (@rev string) chain_mapping
                 (PyList [PyStr "A"; PyStr "B"; PyStr "C"]) "icd2024gm" false false)
     = Ok (PyInt 7).
Proof.
  split; [reflexivity |]. split; [reflexivity |]. split; [reflexivity |].
  split; [| split; reflexivity].
  intros H.
  specialize (H ["a"; "c"] eq_refl "a" (or_introl eq_refl)).
  destruct H as [H _]. specialize (H (or_introl eq_refl)).
  vm_compute in H. discriminate.
Qed.

Section EntryPoint.

Variable iter_order : pyset -> list string.
Hypothesis iter_order_perm : forall s, Permutation (iter_order s) s.

(** C3 (as amended).  For a known mapping and a valid input on which the
    categorisation completes, a call with [list_cat] set itself prints the
    header line followed by the display name of every retained category,
    in the enumeration order of the set, and the value it returns carries
    the integer score, the sum of the retained weights. *)
Theorem list_cat_prints_retained_names
(mappingdata : dict category_table) (icd_codes : pyval) (mapping : string)
(exact_codes : bool) (data : category_table) (scored : pyset) :
dict_get mapping mappingdata = Some data ->
invalid_input icd_codes = false ->
categorize (matcher exact_codes icd_codes) data [] = Ok scored ->
exists retained,
  suppress data (iter_order scored) scored = Ok retained
  /\ printed (calculate_score iter_order mappingdata icd_codes mapping true exact_codes)
     = header :: map (display_name data) (iter_order retained)
  /\ exists v,
       returned (calculate_score iter_order mappingdata icd_codes mapping true exact_codes)
       = Ok v
       /\ carries_int (total_weight data retained) v = true.
Proof.
intros Hget Hvalid Hcat.
destruct (calculate_score_run iter_order iter_order_perm mappingdata icd_codes mapping
            true exact_codes data scored Hget Hvalid Hcat)
  as [retained [Hsup [_ Hrun]]].
exists retained. rewrite Hrun. cbn [printed returned].
split; [assumption | split; [reflexivity |]].
exists (PyInt (total_weight data retained)). split; [reflexivity |].
cbn [carries_int]. apply Z.eqb_refl.
Qed.

(** C4.  With a known mapping, an argument that is neither a string nor a
  list of strings makes the call return [None]: nothing is printed, and
  the value returned is no integer, so it differs from a score of 0. *)
Theorem invalid_input_returns_none
(mappingdata : dict category_table) (icd_codes : pyval) (mapping : string)
(list_cat exact_codes : bool) (data : category_table) :
dict_get mapping mappingdata = Some data ->
~ is_code_input icd_codes ->
calculate_score iter_order mappingdata icd_codes mapping list_cat exact_codes
= mk_run [] (Ok PyNone)
/\ forall z,
     returned (calculate_score iter_order mappingdata icd_codes mapping list_cat exact_codes)
     <> Ok (PyInt z).
Proof.
intros Hget Hbad.
assert (Hinv : invalid_input icd_codes = true).
{ apply not_false_is_true. intros H. now apply invalid_input_false in H. }
unfold calculate_score. rewrite Hget, Hinv. split; [reflexivity |].
intros z. cbn. discriminate.
Qed.

(** C5.  A mapping version id without a category table makes the call
  raise [KeyError] on that id: nothing is printed, no score is returned
  and no other table of the mapping is consulted. *)
Theorem unknown_mapping_raises
(mappingdata : dict category_table) (icd_codes : pyval) (mapping : string)
(list_cat exact_codes : bool) :
dict_get mapping mappingdata = None ->
calculate_score iter_order mappingdata icd_codes mapping list_cat exact_codes
= mk_run [] (Raise (KeyError mapping)).
Proof.
intros Hget. unfold calculate_score. now rewrite Hget.
Qed.

(** C9.  The mapping is looked up before the input is validated: with an
  unknown mapping id an invalid input still raises [KeyError], and a
  call that returns [None] had a known mapping id (and an invalid
  input). *)
Theorem mapping_lookup_precedes_validation
(mappingdata : dict category_table) (icd_codes : pyval) (mapping : string)
(list_cat exact_codes : bool) :
(dict_get mapping mappingdata = None ->
 invalid_input icd_codes = true ->
 calculate_score iter_order mappingdata icd_codes mapping list_cat exact_codes
 = mk_run [] (Raise (KeyError mapping)))
/\ (returned (calculate_score iter_order mappingdata icd_codes mapping list_cat exact_codes)
    = Ok PyNone ->
    (exists data, dict_get mapping mappingdata = Some data)
    /\ invalid_input icd_codes = true).
Proof.
unfold calculate_score. split.
- intros Hget _. now rewrite Hget.
- destruct (dict_get mapping mappingdata) as [data |]; [| discriminate].
  destruct (invalid_input icd_codes).
  + intros _. split; [now exists data | reflexivity].
  + match goal with
    | |- returned (match ?c with _ => _ end) = _ -> _ =>
        destruct c as [[retained score] | e]
    end; [| discriminate].
    destruct list_cat; [| discriminate].
    destruct (print_names data (iter_order retained)) as [out [e |]]; discriminate.
Qed.

(** C7.  On a mapping whose code groups meet the invariants of the data
  model, the empty code list is a valid input: both matchers answer
  false on every group, no category scores, and the call returns the
  score 0 (printing only the header line when [list_cat] is set). *)
Theorem empty_input_scores_zero
(mappingdata : dict category_table) (mapping : string)
(list_cat exact_codes : bool) (data : category_table) :
dict_get mapping mappingdata = Some data ->
table_ok data = true ->
invalid_input (PyList []) = false
/\ (forall item g, In item data -> In g (Category.codes (snd item)) ->
      check_codes_exact (CodeList []) g = Ok false
      /\ check_codes_startswith (CodeList []) g = Ok false)
/\ categorize (matcher exact_codes (PyList [])) data [] = Ok []
/\ calculate_score iter_order mappingdata (PyList []) mapping list_cat exact_codes
   = mk_run (if list_cat then [header] else []) (Ok (PyInt 0)).
Proof.
intros Hget Hok. split; [reflexivity | split; [| split]].
- intros item g Hitem Hg. unfold table_ok in Hok.
  rewrite forallb_forall in Hok. specialize (Hok item Hitem).
  rewrite forallb_forall in Hok. specialize (Hok g Hg).
  split; [now apply check_codes_exact_empty | now apply check_codes_startswith_empty].
- now apply categorize_empty_input.
- destruct (calculate_score_run iter_order iter_order_perm mappingdata (PyList []) mapping
              list_cat exact_codes data [] Hget eq_refl
              (categorize_empty_input exact_codes data Hok))
    as [retained [_ [Hsub Hrun]]].
  assert (Hnil : retained = []).
  { destruct retained as [| c r]; [reflexivity |]. destruct (Hsub c). now left. }
  subst retained. rewrite Hrun.
  assert (Hiter : iter_order [] = [])
    by (apply Permutation_nil, Permutation_sym, iter_order_perm).
  rewrite Hiter. reflexivity.
Qed.

(** C8.  Permuting the list of input codes changes nothing in the outcome
  of a call, for every mapping and in both match modes: the same lines
  are printed and the same score (or the same exception) results. *)
Theorem permuted_codes_same_score
(mappingdata : dict category_table) (l l' : list pyval) (mapping : string)
(list_cat exact_codes : bool) :
Permutation l l' ->
calculate_score iter_order mappingdata (PyList l) mapping list_cat exact_codes
= calculate_score iter_order mappingdata (PyList l') mapping list_cat exact_codes.
Proof.
intros Hperm. unfold calculate_score.
destruct (dict_get mapping mappingdata) as [data |]; [| reflexivity].
assert (Hinv : invalid_input (PyList l) = invalid_input (PyList l')).
{ unfold invalid_input. cbn. f_equal.
  apply forallb_same_elements. now apply perm_same_elements. }
rewrite Hinv. destruct (invalid_input (PyList l')); [reflexivity |].
change (if exact_codes
        then check_codes_exact (typed_codes (PyList l))
        else check_codes_startswith (typed_codes (PyList l)))
  with (matcher exact_codes (PyList l)).
change (if exact_codes
        then check_codes_exact (typed_codes (PyList l'))
        else check_codes_startswith (typed_codes (PyList l')))
  with (matcher exact_codes (PyList l')).
rewrite (categorize_pointwise (matcher exact_codes (PyList l))
           (matcher exact_codes (PyList l')) data
           (fun g => matcher_perm exact_codes l l' g Hperm) []).
reflexivity.
Qed.

End EntryPoint.

(** ** Instances on the sample mappings *)

Lemma insertion_order_perm (s : pyset) : Permutation (insertion_order s) s.
Proof. apply Permutation_refl. Qed.

Lemma list_cat_prints_retained_names_witness :
  exists retained,
    suppress liver_table (insertion_order ["liver_mild"; "liver_severe"])
      ["liver_mild"; "liver_severe"] = Ok retained
    /\ printed (calculate_score insertion_order liver_mapping
                  (PyList [PyStr "K74.6"; PyStr "K74.7"]) "icd2024gm" true false)
       = header :: map (display_name liver_table) (insertion_order retained)
    /\ exists v,
         returned (calculate_score insertion_order liver_mapping
                     (PyList [PyStr "K74.6"; PyStr "K74.7"]) "icd2024gm" true false)
         = Ok v
         /\ carries_int (total_weight liver_table retained) v = true.
Proof.
  apply (list_cat_prints_retained_names insertion_order insertion_order_perm
           liver_mapping (PyList [PyStr "K74.6"; PyStr "K74.7"]) "icd2024gm" false
           liver_table ["liver_mild"; "liver_severe"]); reflexivity.
Defined.

(** C3 (counterexample).  With [list_cat] set and the single code K74.6,
    the call itself prints the header and the name of the mild liver
    category, and the value it returns, the integer 3, holds no name. *)
Lemma list_cat_report_counterexample :
  printed (calculate_score insertion_order liver_mapping
             (PyList [PyStr "K74.6"]) "icd2024gm" true false)
  = [header; "Mild liver disease"]
  /\ returned (calculate_score insertion_order liver_mapping
                 (PyList [PyStr "K74.6"]) "icd2024gm" true false)
     = Ok (PyInt 3)
  /\ ~ reports_by_return ["Mild liver disease"]
         (calculate_score insertion_order liver_mapping
            (PyList [PyStr "K74.6"]) "icd2024gm" true false).
Proof.
  split; [reflexivity | split; [reflexivity |]].
  intros [Hsilent _]. vm_compute in Hsilent. discriminate.
Qed.

Lemma invalid_input_returns_none_witness :
  calculate_score insertion_order liver_mapping (PyList [PyInt 123; PyStr "A00"])
    "icd2024gm" false false
  = mk_run [] (Ok PyNone)
  /\ forall z,
       returned (calculate_score insertion_order liver_mapping
                   (PyList [PyInt 123; PyStr "A00"]) "icd2024gm" false false)
       <> Ok (PyInt z).
Proof.
  apply (invalid_input_returns_none insertion_order liver_mapping
           (PyList [PyInt 123; PyStr "A00"]) "icd2024gm" false false liver_table).
  - reflexivity.
  - intros H. apply invalid_input_false in H. vm_compute in H. discriminate.
Defined.

Lemma unknown_mapping_raises_witness :
  calculate_score insertion_order liver_mapping (PyList [PyStr "K74.6"])
    "icd9" false false
  = mk_run [] (Raise (KeyError "icd9")).
Proof.
  apply (unknown_mapping_raises insertion_order liver_mapping
           (PyList [PyStr "K74.6"]) "icd9" false false).
  reflexivity.
Defined.

Lemma mapping_lookup_precedes_validation_witness :
  calculate_score insertion_order liver_mapping (PyList [PyInt 123; PyStr "A00"])
    "icd9" false false
  = mk_run [] (Raise (KeyError "icd9"))
  /\ ((exists data, dict_get "icd2024gm" liver_mapping = Some data)
      /\ invalid_input (PyList [PyInt 123; PyStr "A00"]) = true).
Proof.
  split.
  - apply (proj1 (mapping_lookup_precedes_validation insertion_order liver_mapping
                    (PyList [PyInt 123; PyStr "A00"]) "icd9" false false));
      reflexivity.
  - apply (proj2 (mapping_lookup_precedes_validation insertion_order liver_mapping
                    (PyList [PyInt 123; PyStr "A00"]) "icd2024gm" false false)).
    reflexivity.
Defined.

Lemma empty_input_scores_zero_witness :
  invalid_input (PyList []) = false
  /\ (forall item g, In item liver_table -> In g (Category.codes (snd item)) ->
        check_codes_exact (CodeList []) g = Ok false
        /\ check_codes_startswith (CodeList []) g = Ok false)
  /\ categorize (matcher false (PyList [])) liver_table [] = Ok []
  /\ calculate_score insertion_order liver_mapping (PyList []) "icd2024gm" true false
     = mk_run [header] (Ok (PyInt 0)).
Proof.
  apply (empty_input_scores_zero insertion_order insertion_order_perm
           liver_mapping "icd2024gm" true false liver_table); reflexivity.
Defined.

Lemma permuted_codes_same_score_witness :
  calculate_score insertion_order liver_mapping
    (PyList [PyStr "K74.6"; PyStr "K74.7"]) "icd2024gm" true false
  = calculate_score insertion_order liver_mapping
      (PyList [PyStr "K74.7"; PyStr "K74.6"]) "icd2024gm" true false.
Proof.
  apply (permuted_codes_same_score insertion_order liver_mapping
           [PyStr "K74.6"; PyStr "K74.7"] [PyStr "K74.7"; PyStr "K74.6"]
           "icd2024gm" true false).
  apply perm_swap.
Defined.

(** * Further properties of the matchers *)

Lemma prefix_self (s : string) : String.prefix s s = true.
Proof.
  induction s as [| a s IH]; cbn; [reflexivity |].
  destruct (ascii_dec a a) as [_ | Hneq]; [assumption | now destruct Hneq].
Qed.

Lemma prefix_empty (s : string) : String.prefix "" s = true.
Proof. destruct s; reflexivity. Qed.

Lemma existsb_on_elements {A : Type} (f g : A -> bool) (l : list A) :
  (forall x, In x l -> f x = g x) -> existsb f l = existsb g l.
Proof.
  induction l as [| x l IH]; intros H; cbn; [reflexivity |].
  rewrite (H x) by now left. f_equal. apply IH. intros y Hy. apply H. now right.
Qed.

Lemma forallb_on_elements {A : Type} (f g : A -> bool) (l : list A) :
  (forall x, In x l -> f x = g x) -> forallb f l = forallb g l.
Proof.
  induction l as [| x l IH]; intros H; cbn; [reflexivity |].
  rewrite (H x) by now left. f_equal. apply IH. intros y Hy. apply H. now right.
Qed.

(** X1.  In prefix mode a [both] group whose sub-groups are all non-empty
    is matched only by inputs that meet every sub-group: each sub-group has
    an entry that some input code starts with. *)
Theorem startswith_both_meets_every_subgroup
  (icd_codes : icd_arg) (gs : list (list string)) :
  (forall group, In group gs -> group <> []) ->
  check_codes_startswith icd_codes (both_of gs) = Ok true ->
  forall group, In group gs ->
    exists code prefix, In code (ensure_list icd_codes) /\ In prefix group
                        /\ startswith code prefix = true.
Proof.
  intros Hne Hrun group Hg.
  unfold check_codes_startswith in Hrun. cbn in Hrun. injection Hrun as Hall.
  rewrite forallb_forall in Hall.
  destruct group as [| prefix rest] eqn:E; [now destruct (Hne [] Hg) |].
  assert (Hin : In prefix (flat_map (fun g => g) gs)).
  { apply in_flat_map. exists (prefix :: rest). split; [assumption | now left]. }
  apply Hall, existsb_exists in Hin. destruct Hin as [code [Hc Hs]].
  exists code, prefix. split; [assumption | split; [now left | assumption]].
Qed.

Lemma startswith_both_meets_every_subgroup_witness :
  exists code prefix, In code (ensure_list (CodeList ["A1"; "B2"; "C3"]))
                      /\ In prefix ["A"; "B"] /\ startswith code prefix = true.
Proof.
  apply (startswith_both_meets_every_subgroup (CodeList ["A1"; "B2"; "C3"])
           [["A"; "B"]; ["C"]]).
  - intros group [<- | [<- | []]]; discriminate.
  - reflexivity.
  - now left.
Defined.

(** X2.  A group with condition ["any"] that the exact matcher accepts is
    accepted by the prefix matcher on the same input: a code is a prefix
    of itself. *)
Theorem exact_any_implies_startswith_any (icd_codes : icd_arg) (code_group : CodeGroup.t) :
  CodeGroup.condition code_group = "any" ->
  check_codes_exact icd_codes code_group = Ok true ->
  check_codes_startswith icd_codes code_group = Ok true.
Proof.
  intros Hcond. unfold check_codes_exact, check_codes_startswith.
  rewrite Hcond. cbn [String.eqb Ascii.eqb Bool.eqb].
  destruct (CodeGroup.codes code_group) as [cs | gs].
  - intros H. injection H as H. f_equal.
    apply existsb_exists in H. destruct H as [code [Hc Hin]].
    apply py_in_In in Hin.
    apply existsb_exists. exists code. split; [assumption |].
    apply existsb_exists. exists code. split; [assumption | apply prefix_self].
  - intros H. injection H as H.
    assert (Hnone : existsb (fun _ : list string => false) gs = false)
      by (clear H; induction gs; cbn; auto).
    congruence.
Qed.

Lemma exact_any_implies_startswith_any_witness :
  check_codes_startswith (CodeList ["E10.0"; "K74.6"]) (any_of ["K74.6"; "K74.7"]) = Ok true.
Proof.
  apply (exact_any_implies_startswith_any (CodeList ["E10.0"; "K74.6"])
           (any_of ["K74.6"; "K74.7"])); reflexivity.
Defined.

Lemma matchers_monotone
  (icd_codes icd_codes' : icd_arg) (code_group : CodeGroup.t) :
  incl (ensure_list icd_codes) (ensure_list icd_codes') ->
  (check_codes_exact icd_codes code_group = Ok true ->
   check_codes_exact icd_codes' code_group = Ok true)
  /\ (check_codes_startswith icd_codes code_group = Ok true ->
      check_codes_startswith icd_codes' code_group = Ok true).
Proof.
  intros Hincl.
  assert (Hin : forall code, py_in code (ensure_list icd_codes) = true ->
                             py_in code (ensure_list icd_codes') = true).
  { intros code H. apply py_in_In. apply py_in_In in H. now apply Hincl. }
  assert (Hex : forall (f : string -> bool),
             existsb f (ensure_list icd_codes) = true ->
             existsb f (ensure_list icd_codes') = true).
  { intros f H. apply existsb_exists in H. destruct H as [x [Hx Hf]].
    apply existsb_exists. exists x. split; [now apply Hincl | assumption]. }
  assert (Hany : forall l, existsb (fun code => py_in code (ensure_list icd_codes)) l = true ->
                           existsb (fun code => py_in code (ensure_list icd_codes')) l = true).
  { intros l H. apply existsb_exists in H. destruct H as [x [Hx Hf]].
    apply existsb_exists. exists x. split; [assumption | now apply Hin]. }
  unfold check_codes_exact, check_codes_startswith. split.
  - destruct (CodeGroup.condition code_group =? "any").
    + destruct (CodeGroup.codes code_group) as [cs | gs]; [| auto].
      intros H. injection H as H. f_equal. now apply Hany.
    + destruct (CodeGroup.condition code_group =? "both"); [| auto].
      destruct (CodeGroup.codes code_group) as [cs | gs];
        intros H; injection H as H; f_equal;
        rewrite forallb_forall in *; intros x Hx; apply Hany; now apply H.
  - destruct (CodeGroup.condition code_group =? "any").
    + destruct (CodeGroup.codes code_group) as [cs | gs].
      * intros H. injection H as H. f_equal. now apply Hex.
      * destruct (ensure_list icd_codes) as [| c l]; destruct gs as [| g gs];
          discriminate.
    + destruct (CodeGroup.condition code_group =? "both"); [| auto].
      destruct (CodeGroup.codes code_group) as [cs | gs];
        intros H; injection H as H; f_equal;
        rewrite forallb_forall in *; intros x Hx; apply Hex; now apply H.
Qed.

(** X3.  Both matchers are monotone in the input: a group matched by an
    input is matched by every input that holds at least the same codes. *)
Theorem more_codes_keep_match
  (icd_codes icd_codes' : icd_arg) (code_group : CodeGroup.t) :
  incl (ensure_list icd_codes) (ensure_list icd_codes') ->
  (check_codes_exact icd_codes code_group = Ok true ->
   check_codes_exact icd_codes' code_group = Ok true)
  /\ (check_codes_startswith icd_codes code_group = Ok true ->
      check_codes_startswith icd_codes' code_group = Ok true).
Proof. apply matchers_monotone. Qed.

Lemma more_codes_keep_match_witness :
  (check_codes_exact (CodeList ["K74.6"]) (any_of ["K74.6"]) = Ok true ->
   check_codes_exact (CodeList ["E10.0"; "K74.6"]) (any_of ["K74.6"]) = Ok true)
  /\ (check_codes_startswith (CodeList ["K74.6"]) (any_of ["K74.6"]) = Ok true ->
      check_codes_startswith (CodeList ["E10.0"; "K74.6"]) (any_of ["K74.6"]) = Ok true).
Proof.
  apply (more_codes_keep_match (CodeList ["K74.6"]) (CodeList ["E10.0"; "K74.6"])
           (any_of ["K74.6"])).
  intros c [<- | []]. cbn. tauto.
Defined.

(** X4.  In prefix mode an ["any"] group that lists the empty string is
    matched by every non-empty input. *)
Theorem empty_pattern_matches_any_code (icd_codes : icd_arg) (cs : list string) :
  In "" cs ->
  ensure_list icd_codes <> [] ->
  check_codes_startswith icd_codes (any_of cs) = Ok true.
Proof.
  intros Hin Hne. unfold check_codes_startswith. cbn.
  destruct (ensure_list icd_codes) as [| code l]; [now destruct Hne |].
  f_equal. cbn. apply orb_true_iff. left.
  apply existsb_exists. exists "". split; [assumption | apply prefix_empty].
Qed.

Lemma empty_pattern_matches_any_code_witness :
  check_codes_startswith (OneCode "Z99") (any_of ["K74.6"; ""]) = Ok true.
Proof.
  apply (empty_pattern_matches_any_code (OneCode "Z99") ["K74.6"; ""]).
  - cbn. tauto.
  - cbn. discriminate.
Defined.

(** * Further properties of the categorisation *)

Lemma first_match_hit (check : CodeGroup.t -> result bool) (groups : list CodeGroup.t) :
  first_match check groups = Ok true ->
  exists g, In g groups /\ check g = Ok true.
Proof.
  induction groups as [| g groups IH]; cbn; [discriminate |].
  destruct (check g) as [[|] | e] eqn:E; cbn; try discriminate.
  - intros _. exists g. split; [now left | assumption].
  - intros H. destruct (IH H) as [g' [Hin Hg']]. exists g'. split; [now right | assumption].
Qed.

Lemma first_match_found (check : CodeGroup.t -> result bool) (groups : list CodeGroup.t)
  (hit : bool) :
  first_match check groups = Ok hit ->
  (exists g, In g groups /\ check g = Ok true) -> hit = true.
Proof.
  induction groups as [| g groups IH]; cbn.
  - intros _ [g [[] _]].
  - destruct (check g) as [[|] | e] eqn:E; cbn; try discriminate.
    + intros H _. now injection H as <-.
    + intros H [g' [[<- | Hin] Hg']]; [congruence |].
      apply IH; [assumption | now exists g'].
Qed.

Lemma categorize_members (check : CodeGroup.t -> result bool) (items : category_table) :
  forall acc scored,
    categorize check items acc = Ok scored ->
    forall c, In c scored <->
              In c acc
              \/ exists details g, In (c, details) items
                                   /\ In g (Category.codes details) /\ check g = Ok true.
Proof.
  induction items as [| [category details] items IH]; intros acc scored Hrun c;
    cbn in Hrun.
  - injection Hrun as <-. split; [tauto | intros [H | [d [g [[] _]]]]; assumption].
  - destruct (first_match check (Category.codes details)) as [hit | e] eqn:Hfm;
      cbn in Hrun; [| discriminate].
    rewrite (IH _ _ Hrun c). split.
    + intros [Hacc | [d [g [Hin [Hg Hc]]]]].
      * destruct hit; [| now left].
        apply set_add_In in Hacc. destruct Hacc as [-> | Hacc]; [| now left].
        apply first_match_hit in Hfm. destruct Hfm as [g [Hg Hc]].
        right. exists details, g. split; [now left | split; assumption].
      * right. exists d, g. split; [now right | split; assumption].
    + intros [Hacc | [d [g [[Heq | Hin] [Hg Hc]]]]].
      * left. destruct hit; [apply set_add_In; now right | assumption].
      * injection Heq as -> ->.
        assert (Hhit : hit = true) by (apply (first_match_found _ _ _ Hfm); now exists g).
        subst hit. left. apply set_add_In. now left.
      * right. exists d, g. split; [assumption | split; assumption].
Qed.

Lemma strings_of_map (l : list string) : strings_of (map PyStr l) = l.
Proof.
  unfold strings_of. induction l as [| s l IH]; cbn; [reflexivity | now rewrite IH].
Qed.

(** X5.  When the categorisation completes, a category is scored exactly
    when the table holds it with at least one code group that the matcher
    accepts: one matching group suffices, and a category without groups
    never scores. *)
Theorem scored_iff_some_group_matches
  (check : CodeGroup.t -> result bool) (data : category_table) (scored : pyset) :
  categorize check data [] = Ok scored ->
  forall c, In c scored <->
            exists details g, In (c, details) data
                              /\ In g (Category.codes details) /\ check g = Ok true.
Proof.
  intros Hrun c. rewrite (categorize_members check data [] scored Hrun c).
  split; [intros [[] | H]; exact H | intros H; now right].
Qed.

Lemma scored_iff_some_group_matches_witness :
  In "liver_severe" ["liver_severe"] <->
  exists details g, In ("liver_severe", details) liver_table
                    /\ In g (Category.codes details)
                    /\ check_codes_startswith (CodeList ["K74.71"]) g = Ok true.
Proof.
  apply (scored_iff_some_group_matches (check_codes_startswith (CodeList ["K74.71"]))
           liver_table ["liver_severe"]).
  reflexivity.
Defined.

(** X6.  Adding codes to the input never un-scores a category: when the
    categorisation completes on both inputs, in the same match mode, every
    category scored on the smaller input is scored on the larger one. *)
Theorem more_codes_keep_scored
  (exact_codes : bool) (l l' : list string) (data : category_table)
  (scored scored' : pyset) :
  incl l l' ->
  categorize (matcher exact_codes (PyList (map PyStr l))) data [] = Ok scored ->
  categorize (matcher exact_codes (PyList (map PyStr l'))) data [] = Ok scored' ->
  incl scored scored'.
Proof.
  intros Hincl Hrun Hrun' c Hc.
  apply (categorize_members _ _ _ _ Hrun) in Hc.
  destruct Hc as [[] | [details [g [Hin [Hg Hm]]]]].
  apply (categorize_members _ _ _ _ Hrun'). right. exists details, g.
  split; [assumption | split; [assumption |]].
  unfold matcher, typed_codes in *. cbn [items_of] in *.
  rewrite strings_of_map in *.
  destruct (matchers_monotone (CodeList l) (CodeList l') g Hincl) as [Hex Hpre].
  destruct exact_codes; auto.
Qed.

Lemma more_codes_keep_scored_witness :
  incl ["liver_mild"] ["liver_mild"; "liver_severe"].
Proof.
  apply (more_codes_keep_scored false ["K74.6"] ["K74.6"; "K74.7"] liver_table).
  - intros c [<- | []]. now left.
  - reflexivity.
  - reflexivity.
Defined.

(** * Further properties of the input *)

Lemma categorize_on_table (check check' : CodeGroup.t -> result bool)
  (items : category_table) :
  (forall item g, In item items -> In g (Category.codes (snd item)) -> check g = check' g) ->
  forall acc, categorize check items acc = categorize check' items acc.
Proof.
  induction items as [| [category details] items IH]; intros H acc; cbn; [reflexivity |].
  assert (Hfm : first_match check (Category.codes details)
                = first_match check' (Category.codes details)).
  { assert (Hg : forall g, In g (Category.codes details) -> check g = check' g)
      by (intros g Hg; apply (H (category, details) g); [now left | assumption]).
    clear H IH. induction (Category.codes details) as [| g gs IHg]; cbn; [reflexivity |].
    rewrite (Hg g) by now left.
    destruct (check' g) as [[|] | e]; cbn; try reflexivity.
    apply IHg. intros g' Hg'. apply Hg. now right. }
  rewrite Hfm. destruct (first_match check' (Category.codes details)) as [hit | e]; cbn;
    [| reflexivity].
  apply IH. intros item g Hitem Hg. apply (H item g); [now right | assumption].
Qed.

Lemma py_in_cons (code c : string) (l : list string) :
  py_in code (c :: l) = (code =? c) || py_in code l.
Proof. reflexivity. Qed.

Lemma matcher_unmatched (exact_codes : bool) (c : string) (l : list pyval)
  (g : CodeGroup.t) :
  flat_any g = true ->
  unmatched exact_codes c g = true ->
  matcher exact_codes (PyList (PyStr c :: l)) g = matcher exact_codes (PyList l) g.
Proof.
  unfold flat_any, unmatched, patterns, matcher, typed_codes.
  cbn [items_of strings_of flat_map app].
  fold (strings_of l). generalize (strings_of l). clear l. intros l.
  unfold check_codes_exact, check_codes_startswith. cbn [ensure_list].
  intros Hflat Hun. rewrite forallb_forall in Hun.
  destruct exact_codes.
  - assert (Hdrop : forall group,
               (forall code, In code group -> (code =? c) = false) ->
               existsb (fun code => py_in code (c :: l)) group
               = existsb (fun code => py_in code l) group).
    { intros group Hg. apply existsb_on_elements. intros code Hcode.
      rewrite py_in_cons, (Hg code Hcode). reflexivity. }
    destruct (CodeGroup.condition g =? "any").
    + destruct (CodeGroup.codes g) as [cs | gs]; [| reflexivity].
      f_equal. apply Hdrop. intros code Hcode. apply Hun in Hcode.
      now apply negb_true_iff in Hcode.
    + destruct (CodeGroup.condition g =? "both"); [| reflexivity].
      destruct (CodeGroup.codes g) as [cs | gs]; f_equal;
        apply forallb_on_elements; intros group Hgroup; apply Hdrop;
        intros code Hcode; apply negb_true_iff, Hun, in_flat_map;
        exists group; split; assumption.
  - destruct (CodeGroup.condition g =? "any").
    + destruct (CodeGroup.codes g) as [cs | gs]; [| discriminate].
      f_equal. cbn [existsb].
      assert (Hnone : existsb (fun prefix => startswith c prefix) cs = false).
      { apply not_true_is_false. intros H. apply existsb_exists in H.
        destruct H as [p [Hp Hs]]. apply Hun in Hp. rewrite Hs in Hp. discriminate. }
      now rewrite Hnone.
    + destruct (CodeGroup.condition g =? "both"); [| reflexivity].
      destruct (CodeGroup.codes g) as [cs | gs]; f_equal;
        apply forallb_on_elements; intros p Hp; cbn [existsb];
        apply Hun, negb_true_iff in Hp; now rewrite Hp.
Qed.

Lemma strings_of_In (s : string) (l : list pyval) :
  In s (strings_of l) <-> In (PyStr s) l.
Proof.
  unfold strings_of. rewrite in_flat_map. split.
  - intros [v [Hv Hs]]. destruct v; try (now destruct Hs).
    destruct Hs as [<- | []]. assumption.
  - intros H. exists (PyStr s). split; [assumption | now left].
Qed.

Lemma matcher_same_elements (exact_codes : bool) (l l' : list pyval) (g : CodeGroup.t) :
  (forall v, In v l <-> In v l') ->
  matcher exact_codes (PyList l) g = matcher exact_codes (PyList l') g.
Proof.
  intros Hsame.
  assert (Hs : forall s, In s (strings_of l) <-> In s (strings_of l'))
    by (intros s; rewrite !strings_of_In; apply Hsame).
  unfold matcher, typed_codes. cbn [items_of].
  revert Hs. generalize (strings_of l) (strings_of l'). clear. intros k k' Hs.
  assert (Hin : forall code, py_in code k = py_in code k')
    by (intros code; now apply existsb_same_elements).
  unfold check_codes_exact, check_codes_startswith. cbn [ensure_list].
  destruct exact_codes.
  - destruct (CodeGroup.condition g =? "any").
    + destruct (CodeGroup.codes g); [| reflexivity].
      f_equal. now apply existsb_pointwise.
    + destruct (CodeGroup.condition g =? "both"); [| reflexivity].
      destruct (CodeGroup.codes g); f_equal; apply forallb_pointwise;
        intros group; now apply existsb_pointwise.
  - destruct (CodeGroup.condition g =? "any").
    + destruct (CodeGroup.codes g) as [cs | gs].
      * f_equal. now apply existsb_same_elements.
      * destruct k as [| c k]; destruct k' as [| c' k']; try reflexivity.
        -- destruct (proj2 (Hs c')). now left.
        -- destruct (proj1 (Hs c)). now left.
    + destruct (CodeGroup.condition g =? "both"); [| reflexivity].
      destruct (CodeGroup.codes g); f_equal; apply forallb_pointwise;
        intros prefix; now apply existsb_same_elements.
Qed.

Section InputProperties.

Variable iter_order : pyset -> list string.

(** X7.  With a table whose ["any"] groups list code strings, putting one
    more code in front of the input list changes nothing in the outcome of
    the call when no pattern of the table meets that code (none equals it
    in exact mode, none is a prefix of it in prefix mode). *)
Theorem unmatched_code_changes_nothing
  (mappingdata : dict category_table) (c : string) (l : list pyval) (mapping : string)
  (list_cat exact_codes : bool) (data : category_table) :
  dict_get mapping mappingdata = Some data ->
  table_flat_any data = true ->
  table_unmatched exact_codes c data = true ->
  calculate_score iter_order mappingdata (PyList (PyStr c :: l)) mapping list_cat exact_codes
  = calculate_score iter_order mappingdata (PyList l) mapping list_cat exact_codes.
Proof.
  intros Hget Hflat Hun. unfold calculate_score. rewrite Hget.
  assert (Hinv : invalid_input (PyList (PyStr c :: l)) = invalid_input (PyList l))
    by reflexivity.
  rewrite Hinv. destruct (invalid_input (PyList l)); [reflexivity |].
  change (if exact_codes
          then check_codes_exact (typed_codes (PyList (PyStr c :: l)))
          else check_codes_startswith (typed_codes (PyList (PyStr c :: l))))
    with (matcher exact_codes (PyList (PyStr c :: l))).
  change (if exact_codes
          then check_codes_exact (typed_codes (PyList l))
          else check_codes_startswith (typed_codes (PyList l)))
    with (matcher exact_codes (PyList l)).
  rewrite (categorize_on_table (matcher exact_codes (PyList (PyStr c :: l)))
             (matcher exact_codes (PyList l)) data); [reflexivity |].
  intros item g Hitem Hg. unfold table_flat_any, table_unmatched in *.
  rewrite forallb_forall in Hflat, Hun.
  specialize (Hflat item Hitem). specialize (Hun item Hitem).
  rewrite forallb_forall in Hflat, Hun.
  apply matcher_unmatched; [now apply Hflat | now apply Hun].
Qed.

(** X8.  Two input lists holding the same codes, in whatever order and
    with whatever repetitions, give the same outcome of the call. *)
Theorem repeated_codes_same_outcome
  (mappingdata : dict category_table) (l l' : list pyval) (mapping : string)
  (list_cat exact_codes : bool) :
  (forall v, In v l <-> In v l') ->
  calculate_score iter_order mappingdata (PyList l) mapping list_cat exact_codes
  = calculate_score iter_order mappingdata (PyList l') mapping list_cat exact_codes.
Proof.
  intros Hsame. unfold calculate_score.
  destruct (dict_get mapping mappingdata) as [data |]; [| reflexivity].
  assert (Hinv : invalid_input (PyList l) = invalid_input (PyList l')).
  { unfold invalid_input. cbn. f_equal. now apply forallb_same_elements. }
  rewrite Hinv. destruct (invalid_input (PyList l')); [reflexivity |].
  change (if exact_codes
          then check_codes_exact (typed_codes (PyList l))
          else check_codes_startswith (typed_codes (PyList l)))
    with (matcher exact_codes (PyList l)).
  change (if exact_codes
          then check_codes_exact (typed_codes (PyList l'))
          else check_codes_startswith (typed_codes (PyList l')))
    with (matcher exact_codes (PyList l')).
  rewrite (categorize_pointwise (matcher exact_codes (PyList l))
             (matcher exact_codes (PyList l')) data
             (fun g => matcher_same_elements exact_codes l l' g Hsame) []).
  reflexivity.
Qed.

(** X9.  A single code passed as a string is scored like the one-element
    list holding it. *)
Theorem single_string_is_one_element_list
  (mappingdata : dict category_table) (s : string) (mapping : string)
  (list_cat exact_codes : bool) :
  calculate_score iter_order mappingdata (PyStr s) mapping list_cat exact_codes
  = calculate_score iter_order mappingdata (PyList [PyStr s]) mapping list_cat exact_codes.
Proof. reflexivity. Qed.

End InputProperties.

Lemma unmatched_code_changes_nothing_witness :
  calculate_score insertion_order liver_mapping
    (PyList [PyStr "E10.0"; PyStr "K74.6"]) "icd2024gm" true false
  = calculate_score insertion_order liver_mapping
      (PyList [PyStr "K74.6"]) "icd2024gm" true false.
Proof.
  apply (unmatched_code_changes_nothing insertion_order liver_mapping "E10.0"
           [PyStr "K74.6"] "icd2024gm" true false liver_table); reflexivity.
Defined.

Lemma repeated_codes_same_outcome_witness :
  calculate_score insertion_order liver_mapping
    (PyList [PyStr "K74.6"; PyStr "K74.7"; PyStr "K74.6"]) "icd2024gm" true false
  = calculate_score insertion_order liver_mapping
      (PyList [PyStr "K74.7"; PyStr "K74.6"]) "icd2024gm" true false.
Proof.
  apply (repeated_codes_same_outcome insertion_order liver_mapping
           [PyStr "K74.6"; PyStr "K74.7"; PyStr "K74.6"] [PyStr "K74.7"; PyStr "K74.6"]
           "icd2024gm" true false).
  intros v. cbn. tauto.
Defined.

(** * Further properties of the dependency loop *)

Lemma suppressed_in_mono (data : category_table) (s s' : pyset) (c : string) :
  incl s s' -> suppressed_in data s c = true -> suppressed_in data s' c = true.
Proof.
  intros Hincl. unfold suppressed_in.
  destruct (dict_get c data) as [details |]; [| discriminate].
  destruct (Category.depends_on details) as [deps |]; [| discriminate].
  intros H. apply existsb_exists in H. destruct H as [d [Hd Hin]].
  apply existsb_exists. exists d. split; [assumption |].
  apply py_in_In. apply py_in_In in Hin. now apply Hincl.
Qed.

Lemma filter_drop_NoDup (x : string) (s : pyset) :
  NoDup s -> NoDup (filter (fun y => negb (y =? x)) s).
Proof. apply NoDup_filter. Qed.

(** What the loop guarantees in every examination order. *)
Lemma suppress_invariants (data : category_table) (snapshot : list string) :
  forall cur retained,
    NoDup snapshot -> incl snapshot cur ->
    suppress data snapshot cur = Ok retained ->
    incl retained cur
    /\ (NoDup cur -> NoDup retained)
    /\ (forall c details deps d,
          In c snapshot -> In c retained ->
          dict_get c data = Some details ->
          Category.depends_on details = Some deps ->
          In d deps -> ~ In d retained)
    /\ (forall c, In c cur -> ~ In c retained ->
                  In c snapshot /\ suppressed_in data cur c = true).
Proof.
  induction snapshot as [| category rest IH]; intros cur retained Hnd Hincl Hrun.
  - cbn in Hrun. injection Hrun as <-.
    split; [apply incl_refl | split; [auto | split]].
    + intros c details deps d [].
    + intros c Hc Hnot. contradiction.
  - inversion Hnd as [| ? ? Hnotin Hnd']; subst.
    assert (Hrest : incl rest cur) by (intros c Hc; apply Hincl; now right).
    assert (Hkeep : suppress data rest cur = Ok retained ->
                    suppressed_in data cur category = false ->
                    incl retained cur
                    /\ (NoDup cur -> NoDup retained)
                    /\ (forall c details deps d,
                          In c (category :: rest) -> In c retained ->
                          dict_get c data = Some details ->
                          Category.depends_on details = Some deps ->
                          In d deps -> ~ In d retained)
                    /\ (forall c, In c cur -> ~ In c retained ->
                                  In c (category :: rest)
                                  /\ suppressed_in data cur c = true)).
    { intros Hrun' Hfree.
      destruct (IH cur retained Hnd' Hrest Hrun') as [Hsub [Hnodup [Hdeps Hgone]]].
      split; [assumption | split; [assumption | split]].
      - intros c details deps d [<- | Hc] Hret Hget Hdep Hd Hdret.
        + unfold suppressed_in in Hfree. rewrite Hget, Hdep in Hfree.
          assert (Hhit : existsb (fun dep => py_in dep cur) deps = true).
          { apply existsb_exists. exists d. split; [assumption |].
            apply py_in_In. now apply Hsub. }
          congruence.
        + exact (Hdeps c details deps d Hc Hret Hget Hdep Hd Hdret).
      - intros c Hc Hnot. destruct (Hgone c Hc Hnot) as [Hin Hsup].
        split; [now right | assumption]. }
    cbn [suppress] in Hrun.
    destruct (dict_get category data) as [details |] eqn:Hget.
    + destruct (Category.depends_on details) as [deps |] eqn:Hdep.
      * destruct (existsb (fun dep => py_in dep cur) deps) eqn:Hhit.
        -- unfold set_remove in Hrun.
           assert (Hin : py_in category cur = true) by (apply py_in_In, Hincl; now left).
           rewrite Hin in Hrun. cbn [bind] in Hrun.
           set (cur' := filter (fun y => negb (y =? category)) cur) in *.
           assert (Hrest' : incl rest cur').
           { intros c Hc. apply filter_drop_In. split; [now apply Hrest |].
             intros ->. contradiction. }
           assert (Hsub' : incl cur' cur)
             by (intros c Hc; now apply filter_drop_In in Hc).
           destruct (IH cur' retained Hnd' Hrest' Hrun) as [Hsub [Hnodup [Hdeps Hgone]]].
           assert (Hout : ~ In category retained).
           { intros H. apply Hsub, filter_drop_In in H. now destruct H. }
           split; [intros c Hc; now apply Hsub', Hsub | split; [| split]].
           ++ intros Hcur. apply Hnodup. now apply filter_drop_NoDup.
           ++ intros c details' deps' d [<- | Hc] Hret; [contradiction |].
              now apply Hdeps.
           ++ intros c Hc Hnot.
              destruct (string_dec c category) as [-> | Hneq].
              ** split; [now left |].
                 unfold suppressed_in. now rewrite Hget, Hdep.
              ** assert (Hc' : In c cur') by (apply filter_drop_In; now split).
                 destruct (Hgone c Hc' Hnot) as [Hin' Hsup].
                 split; [now right | now apply (suppressed_in_mono data cur' cur)].
        -- apply Hkeep; [assumption |].
           unfold suppressed_in. now rewrite Hget, Hdep.
      * apply Hkeep; [assumption |]. unfold suppressed_in. now rewrite Hget, Hdep.
    + apply Hkeep; [assumption |]. unfold suppressed_in. now rewrite Hget.
Qed.

(** The loop on the set a categorisation produced, in an order that
    enumerates it. *)
Lemma suppress_on_scored
  (check : CodeGroup.t -> result bool) (data : category_table)
  (scored order : list string) :
  categorize check data [] = Ok scored ->
  Permutation order scored ->
  exists retained,
    suppress data order scored = Ok retained
    /\ incl retained scored
    /\ NoDup retained
    /\ (forall c details deps d,
          In c retained -> dict_get c data = Some details ->
          Category.depends_on details = Some deps ->
          In d deps -> ~ In d retained)
    /\ (forall c, In c scored -> ~ In c retained -> suppressed_in data scored c = true).
Proof.
  intros Hcat Hperm.
  destruct (categorize_scored _ _ _ _ Hcat (NoDup_nil _)) as [Hnd _].
  assert (Hnd' : NoDup order) by apply (Permutation_NoDup (Permutation_sym Hperm) Hnd).
  assert (Hincl : incl order scored) by (intros c Hc; apply (Permutation_in c Hperm Hc)).
  destruct (suppress_total data order scored Hnd' Hincl) as [retained [Hrun _]].
  destruct (suppress_invariants data order scored retained Hnd' Hincl Hrun)
    as [Hsub [Hnodup [Hdeps Hgone]]].
  exists retained. split; [assumption | split; [assumption | split; [auto | split]]].
  - intros c details deps d Hc. apply Hdeps.
    apply (Permutation_in c (Permutation_sym Hperm)), Hsub, Hc. exact Hc.
  - intros c Hc Hnot. now destruct (Hgone c Hc Hnot).
Qed.

(** X10.  Whatever the examination order, the dependency loop completes on
    a set produced by the categorisation, keeps only scored categories, and
    leaves a set in which no category stands beside an id of its own
    [depends_on] list. *)
Theorem retained_set_is_dependency_free
  (check : CodeGroup.t -> result bool) (data : category_table)
  (scored order : list string) :
  categorize check data [] = Ok scored ->
  Permutation order scored ->
  exists retained,
    suppress data order scored = Ok retained
    /\ incl retained scored
    /\ forall c details deps d,
         In c retained -> dict_get c data = Some details ->
         Category.depends_on details = Some deps ->
         In d deps -> ~ In d retained.
Proof.
  intros Hcat Hperm.
  destruct (suppress_on_scored check data scored order Hcat Hperm)
    as [retained [Hrun [Hsub [_ [Hdeps _]]]]].
  exists retained. auto.
Qed.

Lemma retained_set_is_dependency_free_witness :
  exists retained,
    suppress chain_table ["c"; "b"; "a"] ["a"; "b"; "c"] = Ok retained
    /\ incl retained ["a"; "b"; "c"]
    /\ forall c details deps d,
         In c retained -> dict_get c chain_table = Some details ->
         Category.depends_on details = Some deps ->
         In d deps -> ~ In d retained.
Proof.
  apply (retained_set_is_dependency_free
           (check_codes_startswith (CodeList ["A"; "B"; "C"])) chain_table).
  - reflexivity.
  - apply (Permutation_rev ["c"; "b"; "a"]).
Defined.

(** X11.  Whatever the examination order, a scored category is removed only
    if an id of its [depends_on] list is in the original scored set: a
    scored category without [depends_on], or none of whose dependencies
    scored, is always retained. *)
Theorem unsuppressed_category_is_retained
  (check : CodeGroup.t -> result bool) (data : category_table)
  (scored order retained : list string) (c : string) :
  categorize check data [] = Ok scored ->
  Permutation order scored ->
  suppress data order scored = Ok retained ->
  In c scored ->
  suppressed_in data scored c = false ->
  In c retained.
Proof.
  intros Hcat Hperm Hrun Hc Hfree.
  destruct (suppress_on_scored check data scored order Hcat Hperm)
    as [retained' [Hrun' [_ [_ [_ Hgone]]]]].
  assert (Heq : retained' = retained) by congruence. subst retained'.
  destruct (in_dec string_dec c retained) as [Hin | Hnot]; [assumption |].
  rewrite (Hgone c Hc Hnot) in Hfree. discriminate.
Qed.

Lemma unsuppressed_category_is_retained_witness : In "c" ["a"; "c"].
Proof.
  apply (unsuppressed_category_is_retained
           (check_codes_startswith (CodeList ["A"; "B"; "C"])) chain_table
           ["a"; "b"; "c"] ["c"; "b"; "a"] ["a"; "c"] "c").
  - reflexivity.
  - apply (Permutation_rev ["c"; "b"; "a"]).
  - reflexivity.
  - cbn. tauto.
  - reflexivity.
Defined.

(** X12.  Whatever the examination order, when a scored category lists in
    its [depends_on] a scored category that is not suppressed itself, the
    listed category is retained and the listing one is removed. *)
Theorem severe_suppresses_mild
  (check : CodeGroup.t -> result bool) (data : category_table)
  (scored order retained : list string) (mild severe : string)
  (details : Category.t) (deps : list string) :
  categorize check data [] = Ok scored ->
  Permutation order scored ->
  suppress data order scored = Ok retained ->
  In mild scored ->
  dict_get mild data = Some details ->
  Category.depends_on details = Some deps ->
  In severe deps ->
  In severe scored ->
  suppressed_in data scored severe = false ->
  In severe retained /\ ~ In mild retained.
Proof.
  intros Hcat Hperm Hrun Hmild Hget Hdep Hin Hsev Hfree.
  destruct (suppress_on_scored check data scored order Hcat Hperm)
    as [retained' [Hrun' [_ [_ [Hdeps Hgone]]]]].
  assert (Heq : retained' = retained) by congruence. subst retained'.
  assert (Hkept : In severe retained).
  { destruct (in_dec string_dec severe retained) as [H | Hnot]; [assumption |].
    rewrite (Hgone severe Hsev Hnot) in Hfree. discriminate. }
  split; [assumption |].
  intros Hret. exact (Hdeps mild details deps severe Hret Hget Hdep Hin Hkept).
Qed.

Lemma severe_suppresses_mild_witness :
  In "liver_severe" ["liver_severe"] /\ ~ In "liver_mild" ["liver_severe"].
Proof.
  apply (severe_suppresses_mild
           (check_codes_startswith (CodeList ["K74.6"; "K74.7"])) liver_table
           ["liver_mild"; "liver_severe"] ["liver_severe"; "liver_mild"]
           ["liver_severe"] "liver_mild" "liver_severe"
           (Category.mk "Mild liver disease" 3 [any_of ["K74.6"]] (Some ["liver_severe"]))
           ["liver_severe"]).
  - reflexivity.
  - apply perm_swap.
  - reflexivity.
  - cbn. tauto.
  - reflexivity.
  - reflexivity.
  - cbn. tauto.
  - cbn. tauto.
  - reflexivity.
Defined.

(** * Further properties of the entry point *)

Lemma dict_get_In {V : Type} (k : string) (d : dict V) (v : V) :
  dict_get k d = Some v -> In (k, v) d.
Proof.
  induction d as [| [k' v'] d IH]; cbn; [discriminate |].
  destruct (k' =? k) eqn:E.
  - apply String.eqb_eq in E. intros H. injection H as <-. subst. now left.
  - intros H. right. now apply IH.
Qed.

Lemma weight_of_nonneg (data : category_table) (c : string) :
  weights_nonneg data = true -> (0 <= weight_of data c)%Z.
Proof.
  intros Hw. unfold weight_of.
  destruct (dict_get c data) as [details |] eqn:Hget; [| lia].
  apply dict_get_In in Hget. unfold weights_nonneg in Hw.
  rewrite forallb_forall in Hw. apply Hw in Hget. cbn in Hget. lia.
Qed.

Lemma total_weight_nonneg (data : category_table) (l : list string) :
  weights_nonneg data = true -> (0 <= total_weight data l)%Z.
Proof.
  intros Hw. unfold total_weight. induction l as [| c l IH]; cbn [fold_right]; [lia |].
  pose proof (weight_of_nonneg data c Hw). lia.
Qed.

Lemma total_weight_incl (data : category_table) (l : list string) :
  weights_nonneg data = true ->
  forall l', NoDup l -> incl l l' -> (total_weight data l <= total_weight data l')%Z.
Proof.
  intros Hw. induction l as [| a l IH]; intros l' Hnd Hincl.
  - now apply total_weight_nonneg.
  - inversion Hnd as [| ? ? Hnotin Hnd']; subst.
    assert (Ha : In a l') by (apply Hincl; now left).
    apply in_split in Ha. destruct Ha as [l1 [l2 ->]].
    rewrite <- (total_weight_perm data _ _ (Permutation_middle l1 l2 a)).
    change (total_weight data (a :: l)) with (weight_of data a + total_weight data l)%Z.
    change (total_weight data (a :: l1 ++ l2))
      with (weight_of data a + total_weight data (l1 ++ l2))%Z.
    assert (Hle : (total_weight data l <= total_weight data (l1 ++ l2))%Z).
    { apply IH; [assumption |]. intros x Hx.
      assert (Hx' : In x (l1 ++ a :: l2)) by (apply Hincl; now right).
      apply in_app_iff in Hx'. apply in_app_iff.
      destruct Hx' as [H | [-> | H]]; [now left | contradiction | now right]. }
    lia.
Qed.

Lemma add_weights_keys (data : category_table) (cats : list string) :
  forall score score',
    add_weights data cats score = Ok score' ->
    forall c, In c cats -> In c (map fst data).
Proof.
  induction cats as [| x cats IH]; intros score score' Hrun c Hc; [destruct Hc |].
  cbn in Hrun. unfold dict_getitem in Hrun.
  destruct (dict_get x data) as [details |] eqn:Hget; cbn in Hrun; [| discriminate].
  destruct Hc as [<- | Hc].
  - apply dict_get_keys. now exists details.
  - exact (IH _ _ Hrun c Hc).
Qed.

Lemma check_codes_exact_ok (icd_codes : icd_arg) (g : CodeGroup.t) :
  exists b, check_codes_exact icd_codes g = Ok b.
Proof.
  unfold check_codes_exact.
  destruct (CodeGroup.condition g =? "any");
    [| destruct (CodeGroup.condition g =? "both")];
    try destruct (CodeGroup.codes g); eauto.
Qed.

Lemma check_codes_startswith_raises (icd_codes : icd_arg) (g : CodeGroup.t) (e : exn) :
  check_codes_startswith icd_codes g = Raise e -> e = TypeError /\ flat_any g = false.
Proof.
  unfold check_codes_startswith, flat_any.
  destruct (CodeGroup.condition g =? "any").
  - destruct (CodeGroup.codes g) as [cs | gs]; [discriminate |].
    destruct (ensure_list icd_codes); destruct gs; try discriminate.
    intros H. injection H as <-. split; reflexivity.
  - destruct (CodeGroup.condition g =? "both"); [| discriminate].
    destruct (CodeGroup.codes g); discriminate.
Qed.

Lemma matcher_raises (exact_codes : bool) (icd_codes : pyval) (g : CodeGroup.t) (e : exn) :
  matcher exact_codes icd_codes g = Raise e ->
  exact_codes = false /\ e = TypeError /\ flat_any g = false.
Proof.
  unfold matcher. destruct exact_codes.
  - destruct (check_codes_exact_ok (typed_codes icd_codes) g) as [b ->]. discriminate.
  - intros H. apply check_codes_startswith_raises in H. tauto.
Qed.

Lemma first_match_raises (check : CodeGroup.t -> result bool) (groups : list CodeGroup.t)
  (e : exn) :
  first_match check groups = Raise e -> exists g, In g groups /\ check g = Raise e.
Proof.
  induction groups as [| g groups IH]; cbn; [discriminate |].
  destruct (check g) as [[|] | e'] eqn:E; cbn; try discriminate.
  - intros H. destruct (IH H) as [g' [Hin Hg']]. exists g'. split; [now right | assumption].
  - intros H. injection H as <-. exists g. split; [now left | assumption].
Qed.

Lemma categorize_raises (check : CodeGroup.t -> result bool) (items : category_table)
  (e : exn) :
  forall acc, categorize check items acc = Raise e ->
  exists item g, In item items /\ In g (Category.codes (snd item)) /\ check g = Raise e.
Proof.
  induction items as [| [category details] items IH]; intros acc; cbn; [discriminate |].
  destruct (first_match check (Category.codes details)) as [hit | e'] eqn:Hfm; cbn.
  - intros H. destruct (IH _ H) as [item [g [Hitem Hg]]].
    exists item, g. split; [now right | assumption].
  - intros H. injection H as <-. apply first_match_raises in Hfm.
    destruct Hfm as [g [Hg Hc]]. exists (category, details), g.
    split; [now left | split; assumption].
Qed.

Lemma table_not_flat (data : category_table) (item : string * Category.t) (g : CodeGroup.t) :
  In item data -> In g (Category.codes (snd item)) -> flat_any g = false ->
  table_flat_any data = false.
Proof.
  intros Hitem Hg Hflat. apply not_true_is_false. intros H.
  unfold table_flat_any in H. rewrite forallb_forall in H. specialize (H item Hitem).
  rewrite forallb_forall in H. specialize (H g Hg). congruence.
Qed.

Section Outcomes.

Variable iter_order : pyset -> list string.
Hypothesis iter_order_perm : forall s, Permutation (iter_order s) s.

(** The outcome of a call, branch by branch. *)
Lemma calculate_score_cases
  (mappingdata : dict category_table) (icd_codes : pyval) (mapping : string)
  (list_cat exact_codes : bool) :
  let r := calculate_score iter_order mappingdata icd_codes mapping list_cat exact_codes in
  match dict_get mapping mappingdata with
  | None => r = mk_run [] (Raise (KeyError mapping))
  | Some data =>
      if invalid_input icd_codes then r = mk_run [] (Ok PyNone)
      else
        match categorize (matcher exact_codes icd_codes) data [] with
        | Raise e => r = mk_run [] (Raise e)
        | Ok scored =>
            exists retained,
              suppress data (iter_order scored) scored = Ok retained
              /\ r = mk_run (if list_cat
                             then header :: map (display_name data) (iter_order retained)
                             else [])
                            (Ok (PyInt (total_weight data retained)))
        end
  end.
Proof.
  cbv zeta.
  destruct (dict_get mapping mappingdata) as [data |] eqn:Hget.
  - destruct (invalid_input icd_codes) eqn:Hinv.
    + unfold calculate_score. now rewrite Hget, Hinv.
    + destruct (categorize (matcher exact_codes icd_codes) data []) as [scored | e] eqn:Hcat.
      * destruct (calculate_score_run iter_order iter_order_perm mappingdata icd_codes
                    mapping list_cat exact_codes data scored Hget Hinv Hcat)
          as [retained [Hsup [_ Hrun]]].
        exists retained. split; assumption.
      * unfold calculate_score. rewrite Hget, Hinv.
        change (if exact_codes
                then check_codes_exact (typed_codes icd_codes)
                else check_codes_startswith (typed_codes icd_codes))
          with (matcher exact_codes icd_codes).
        rewrite Hcat. reflexivity.
  - unfold calculate_score. now rewrite Hget.
Qed.

(** X13.  The report flag only adds output: a call returns the same value,
    or raises the same exception, with [list_cat] set and unset, and
    prints nothing when it is unset. *)
Theorem report_flag_only_prints
  (mappingdata : dict category_table) (icd_codes : pyval) (mapping : string)
  (exact_codes : bool) :
  returned (calculate_score iter_order mappingdata icd_codes mapping true exact_codes)
  = returned (calculate_score iter_order mappingdata icd_codes mapping false exact_codes)
  /\ printed (calculate_score iter_order mappingdata icd_codes mapping false exact_codes)
     = [].
Proof.
  pose proof (calculate_score_cases mappingdata icd_codes mapping true exact_codes) as Ht.
  pose proof (calculate_score_cases mappingdata icd_codes mapping false exact_codes) as Hf.
  cbv zeta in Ht, Hf.
  destruct (dict_get mapping mappingdata) as [data |].
  - destruct (invalid_input icd_codes).
    + rewrite Ht, Hf. split; reflexivity.
    + destruct (categorize (matcher exact_codes icd_codes) data []) as [scored | e].
      * destruct Ht as [retained [Hsup ->]]. destruct Hf as [retained' [Hsup' ->]].
        assert (Heq : retained' = retained) by congruence. subst retained'.
        split; reflexivity.
      * rewrite Ht, Hf. split; reflexivity.
  - rewrite Ht, Hf. split; reflexivity.
Qed.

(** X14.  On a table without negative weights, an integer returned by a
    call lies between 0 and the sum of the weights of the table. *)
Theorem score_within_table_weight
  (mappingdata : dict category_table) (icd_codes : pyval) (mapping : string)
  (list_cat exact_codes : bool) (data : category_table) (z : Z) :
  dict_get mapping mappingdata = Some data ->
  weights_nonneg data = true ->
  returned (calculate_score iter_order mappingdata icd_codes mapping list_cat exact_codes)
  = Ok (PyInt z) ->
  (0 <= z <= table_weight data)%Z.
Proof.
  intros Hget Hw Hret.
  pose proof (calculate_score_cases mappingdata icd_codes mapping list_cat exact_codes) as H.
  cbv zeta in H. rewrite Hget in H.
  destruct (invalid_input icd_codes); [rewrite H in Hret; discriminate |].
  destruct (categorize (matcher exact_codes icd_codes) data []) as [scored | e] eqn:Hcat;
    [| rewrite H in Hret; discriminate].
  destruct H as [retained [Hsup Hrun]]. rewrite Hrun in Hret. cbn in Hret.
  injection Hret as <-.
  destruct (categorize_scored _ _ _ _ Hcat (NoDup_nil _)) as [_ Hkeys].
  destruct (suppress_on_scored _ data scored (iter_order scored) Hcat (iter_order_perm scored))
    as [retained' [Hsup' [Hsub [Hnd _]]]].
  assert (Heq : retained' = retained) by congruence. subst retained'.
  split; [now apply total_weight_nonneg |].
  unfold table_weight. apply total_weight_incl; [assumption | assumption |].
  intros c Hc. apply Hsub, Hkeys in Hc. destruct Hc as [[] | Hc]. exact Hc.
Qed.

(** X15.  A call raises only two exceptions: [KeyError] on the mapping id,
    when the mapping has no table for it, and [TypeError], in prefix mode
    on a table with an ["any"] group that holds sub-groups.  The removal
    from the set and the look-ups of the weights and names never fail. *)
Theorem only_two_exceptions
  (mappingdata : dict category_table) (icd_codes : pyval) (mapping : string)
  (list_cat exact_codes : bool) (e : exn) :
  returned (calculate_score iter_order mappingdata icd_codes mapping list_cat exact_codes)
  = Raise e ->
  (e = KeyError mapping /\ dict_get mapping mappingdata = None)
  \/ (e = TypeError /\ exact_codes = false
      /\ exists data, dict_get mapping mappingdata = Some data
                      /\ table_flat_any data = false).
Proof.
  intros Hret.
  pose proof (calculate_score_cases mappingdata icd_codes mapping list_cat exact_codes) as H.
  cbv zeta in H.
  destruct (dict_get mapping mappingdata) as [data |] eqn:Hget.
  - destruct (invalid_input icd_codes); [rewrite H in Hret; discriminate |].
    destruct (categorize (matcher exact_codes icd_codes) data []) as [scored | e'] eqn:Hcat.
    + destruct H as [retained [_ Hrun]]. rewrite Hrun in Hret. discriminate.
    + rewrite H in Hret. cbn in Hret. injection Hret as ->.
      apply categorize_raises in Hcat. destruct Hcat as [item [g [Hitem [Hg Hm]]]].
      apply matcher_raises in Hm. destruct Hm as [Hex [He Hflat]].
      right. split; [assumption | split; [assumption |]].
      exists data. split; [reflexivity | exact (table_not_flat data item g Hitem Hg Hflat)].
  - rewrite H in Hret. cbn in Hret. injection Hret as <-. left. split; reflexivity.
Qed.

(** X16.  With a known mapping and a valid input, a call in exact mode, or
    in prefix mode on a table whose ["any"] groups list code strings,
    returns an integer: the sum of the weights of the retained
    categories. *)
Theorem valid_call_returns_score
  (mappingdata : dict category_table) (icd_codes : pyval) (mapping : string)
  (list_cat exact_codes : bool) (data : category_table) :
  dict_get mapping mappingdata = Some data ->
  is_code_input icd_codes ->
  exact_codes = true \/ table_flat_any data = true ->
  exists scored retained,
    categorize (matcher exact_codes icd_codes) data [] = Ok scored
    /\ suppress data (iter_order scored) scored = Ok retained
    /\ returned (calculate_score iter_order mappingdata icd_codes mapping list_cat exact_codes)
       = Ok (PyInt (total_weight data retained)).
Proof.
  intros Hget Hvalid Hshape. apply invalid_input_false in Hvalid.
  pose proof (calculate_score_cases mappingdata icd_codes mapping list_cat exact_codes) as H.
  cbv zeta in H. rewrite Hget, Hvalid in H.
  destruct (categorize (matcher exact_codes icd_codes) data []) as [scored | e] eqn:Hcat.
  - destruct H as [retained [Hsup Hrun]]. exists scored, retained.
    split; [reflexivity | split; [assumption | now rewrite Hrun]].
  - apply categorize_raises in Hcat. destruct Hcat as [item [g [Hitem [Hg Hm]]]].
    apply matcher_raises in Hm. destruct Hm as [Hex [_ Hflat]].
    pose proof (table_not_flat data item g Hitem Hg Hflat) as Hnot.
    destruct Hshape as [Hs | Hs]; congruence.
Qed.

End Outcomes.

Lemma score_within_table_weight_witness : (0 <= 10 <= table_weight liver_table)%Z.
Proof.
  apply (score_within_table_weight insertion_order insertion_order_perm liver_mapping
           (PyList [PyStr "K74.6"; PyStr "K74.7"]) "icd2024gm" false false liver_table 10);
    reflexivity.
Defined.

Lemma only_two_exceptions_witness :
  (TypeError = KeyError "v1"
   /\ dict_get "v1"
        [("v1", [("x", Category.mk "X" 1 [CodeGroup.mk "any" (Groups [["A"]])] None)])]
      = None)
  \/ (TypeError = TypeError /\ false = false
      /\ exists data,
           dict_get "v1"
             [("v1", [("x", Category.mk "X" 1 [CodeGroup.mk "any" (Groups [["A"]])] None)])]
           = Some data
           /\ table_flat_any data = false).
Proof.
  apply (only_two_exceptions insertion_order insertion_order_perm
           [("v1", [("x", Category.mk "X" 1 [CodeGroup.mk "any" (Groups [["A"]])] None)])]
           (PyStr "A00") "v1" false false TypeError).
  reflexivity.
Defined.

Lemma valid_call_returns_score_witness :
  exists scored retained,
    categorize (matcher false (PyList [PyStr "K74.6"; PyStr "K74.7"])) liver_table []
    = Ok scored
    /\ suppress liver_table (insertion_order scored) scored = Ok retained
    /\ returned (calculate_score insertion_order liver_mapping
                   (PyList [PyStr "K74.6"; PyStr "K74.7"]) "icd2024gm" true false)
       = Ok (PyInt (total_weight liver_table retained)).
Proof.
  apply (valid_call_returns_score insertion_order insertion_order_perm liver_mapping
           (PyList [PyStr "K74.6"; PyStr "K74.7"]) "icd2024gm" true false liver_table).
  - reflexivity.
  - right. exists ["K74.6"; "K74.7"]. reflexivity.
  - right. reflexivity.
Defined.

Lemma report_flag_only_prints_witness :
  returned (calculate_score insertion_order liver_mapping
              (PyList [PyStr "K74.6"]) "icd2024gm" true false)
  = returned (calculate_score insertion_order liver_mapping
                (PyList [PyStr "K74.6"]) "icd2024gm" false false)
  /\ printed (calculate_score insertion_order liver_mapping
                (PyList [PyStr "K74.6"]) "icd2024gm" false false)
     = [].
Proof.
  apply (report_flag_only_prints insertion_order insertion_order_perm liver_mapping
           (PyList [PyStr "K74.6"]) "icd2024gm" false).
Defined.
